(** * month_expenses_manager: [expense_manager.py]

    A shallow embedding of the [ExpenseManager] class and the properties
    of its column coercions and summary queries.

    Conventions of the embedding.
    - Text is [string]; a column read from the csv file is a list of text
      cells.
    - The table [self.df_exp] after [convert_all_cols] is a list of rows
      with a value in each of the nine columns; tables with missing cells
      (an empty csv field is read as NaN) are outside the model.
    - The numbers of the [value] column are exact rationals ([Q]): sums
      and comparisons are those of [Q], and the two-decimal rounding of
      [get_sum] is round-half-to-even on the exact sum.  The rounding
      error of binary floating point is outside the model.
    - What [expense_manager.py] asks of pandas and numpy is collected in
      the record [pandas]: each library function the class calls is a
      field, together with the part of its documented behaviour the class
      relies on.  The methods of the class are definitions over an
      arbitrary [P : pandas]; [stable_kind] and [quicksort_kind] are two
      instances to compute with.
    - Exceptions are values of [exn]; a computation that may raise returns
      a [result]; a method that reads [self] or prints runs in the monad
      [M] over the object and the standard output.
    - While [convert_all_cols] runs the table is a [Frame]: the columns
      by name, each a list of cells.  A column the file gave as text holds
      [CStr] cells; a call that meets a column of another kind ends with
      the outcome [NotText].
    - The module [Python] describes the statements of the file, to follow
      which names executing them binds and looks up. *)

From Stdlib Require Import List String Ascii Bool Arith ZArith QArith Qround.
From Stdlib Require Import Lia Lqa Qabs Permutation Sorted OrderedTypeEx.
Import ListNotations.

Local Open Scope string_scope.

(** ** Exceptions *)

Inductive exn : Type :=
| NameError (name : string)
| KeyError (key : option string)
| ValueError (msg : string)
| PyException (msg : string).

Inductive result (A : Type) : Type :=
| Ok (a : A)
| Raise (e : exn).

Arguments Ok {A} a.
Arguments Raise {A} e.

Definition rbind {A B} (r : result A) (k : A -> result B) : result B :=
  match r with
  | Ok a => k a
  | Raise e => Raise e
  end.

Fixpoint rmap {A B} (f : A -> result B) (l : list A) : result (list B) :=
  match l with
  | [] => Ok []
  | x :: l' =>
      rbind (f x) (fun y => rbind (rmap f l') (fun ys => Ok (y :: ys)))
  end.

(** ** Python strings *)

Module Str.

(** [str.replace(old, new)] for an empty [old]: [new] goes before every
    character and after the last one. *)
Fixpoint intersperse (new s : string) : string :=
  match s with
  | EmptyString => new
  | String c s' => new ++ String c (intersperse new s')
  end.

(** The scan of [str.replace]: left to right, an occurrence of [old] that
    starts at the current position is replaced and the scan resumes after
    it ([skip] counts the characters of the occurrence still to pass). *)
Fixpoint replace_from (skip : nat) (old new s : string) : string :=
  match s with
  | EmptyString => EmptyString
  | String c s' =>
      match skip with
      | S k => replace_from k old new s'
      | O =>
          if prefix old s
          then new ++ replace_from (length old - 1) old new s'
          else String c (replace_from 0 old new s')
      end
  end.

Definition replace (old new s : string) : string :=
  match old with
  | EmptyString => intersperse new s
  | _ => replace_from 0 old new s
  end.

(** [bool(s)]: a string is true when it is not empty. *)
Definition truth (s : string) : bool :=
  match s with
  | EmptyString => false
  | _ => true
  end.

(** [s * k]. *)
Fixpoint times (s : string) (k : nat) : string :=
  match k with
  | O => EmptyString
  | S k' => s ++ times s k'
  end.

End Str.

(** ** Decimal literals *)

Definition digit_of (c : ascii) : option Z :=
  let n := Z.of_nat (nat_of_ascii c) in
  if ((48 <=? n) && (n <=? 57))%Z then Some (n - 48)%Z else None.

(** The digits of [s] up to its end: the number they spell after [acc]
    and how many there are; [None] when a character is not a digit. *)
Fixpoint digits (acc : Z) (count : nat) (s : string) : option (Z * nat) :=
  match s with
  | EmptyString => Some (acc, count)
  | String c s' =>
      match digit_of c with
      | Some d => digits (10 * acc + d)%Z (S count) s'
      | None => None
      end
  end.

(** Integer part: digits up to the first period or the end. *)
Fixpoint int_part (acc : Z) (count : nat) (s : string)
  : option (Z * nat * option string) :=
  match s with
  | EmptyString => Some (acc, count, None)
  | String c s' =>
      if Ascii.eqb c "."%char then Some (acc, count, Some s')
      else
        match digit_of c with
        | Some d => int_part (10 * acc + d)%Z (S count) s'
        | None => None
        end
  end.

Definition pow10 (n : nat) : positive := Nat.iter n (Pos.mul 10) 1%positive.

Definition unsigned_decimal (s : string) : option Q :=
  match int_part 0 0 s with
  | Some (i, ni, None) =>
      if Nat.eqb ni 0 then None else Some (inject_Z i)
  | Some (i, ni, Some frac) =>
      match digits i 0 frac with
      | Some (m, nf) =>
          if Nat.eqb (ni + nf) 0 then None
          else Some (Qred (m # pow10 nf))
      | None => None
      end
  | None => None
  end.

(** [[+-]digits[.digits]] with at least one digit, as an exact rational. *)
Definition decimal_literal (s : string) : option Q :=
  match s with
  | String c s' =>
      if Ascii.eqb c "-" then option_map Qopp (unsigned_decimal s')
      else if Ascii.eqb c "+" then unsigned_decimal s'
      else unsigned_decimal s
  | EmptyString => None
  end.

(** ** Timestamps

    Every date of the table comes from the pattern ["%m/%d/%Y"], so a
    timestamp is a calendar day; days compare by year, month, day. *)

Record Date : Type := mkDate { year : Z; month : Z; day : Z }.

Definition date_compare (a b : Date) : comparison :=
  match (year a ?= year b)%Z with
  | Eq => match (month a ?= month b)%Z with
          | Eq => (day a ?= day b)%Z
          | c => c
          end
  | c => c
  end.

(** [a >= b] on timestamps. *)
Definition date_geb (a b : Date) : bool :=
  match date_compare a b with
  | Lt => false
  | _ => true
  end.

Definition date_eqb (a b : Date) : bool :=
  match date_compare a b with
  | Eq => true
  | _ => false
  end.

(** ** What the class asks of pandas and numpy *)

Record pandas : Type := {
  (** [numpy.argsort] with the default kind (["quicksort"]), which
      [DataFrame.sort_values] uses when no [kind] is passed: the positions
      of the keys in ascending order of key.  The order of equal keys is
      not part of its contract (of the kinds of [sort_values] only
      ["mergesort"] and ["stable"] are documented as stable). *)
  argsort : list Q -> list nat;
  argsort_perm :
    forall ks, Permutation (argsort ks) (seq 0 (List.length ks));
  argsort_sorted :
    forall ks, Sorted Qle (map (fun i => nth i ks 0%Q) (argsort ks));
  (** [pandas.to_numeric] on a text cell; it reads at least the plain
      decimal literals. *)
  to_numeric : string -> option Q;
  to_numeric_decimal :
    forall s q, decimal_literal s = Some q -> to_numeric s = Some q;
  (** [pandas.to_datetime(cell, format=fmt)] on a text cell. *)
  to_datetime : string -> string -> option Date;
  (** [pandas.Timestamp(text)]. *)
  Timestamp : string -> option Date;
  Timestamp_2023_10_01 :
    Timestamp "2023-10-01" = Some (mkDate 2023 10 1)
}.

(** ** Series and data frame operations *)

(** [Series.sum()]. *)
Definition series_sum (values : list Q) : Q :=
  fold_left Qplus values 0%Q.

(** Nearest integer, halves to the even neighbour. *)
Definition rint (x : Q) : Z :=
  let f := Qfloor x in
  match (x - inject_Z f) ?= (1 # 2) with
  | Lt => f
  | Gt => (f + 1)%Z
  | Eq => if Z.even f then f else (f + 1)%Z
  end%Q.

(** [round(x, ndigits)]. *)
Definition round (x : Q) (ndigits : nat) : Q :=
  let scale := pow10 ndigits in
  Qred (rint (x * inject_Z (Zpos scale)) # scale).

(** [frame.take(indexer)]: the rows at the given positions. *)
Definition take {A} (rows : list A) (indexer : list nat) : list A :=
  flat_map (fun i => match nth_error rows i with
                     | Some r => [r]
                     | None => []
                     end) indexer.

(** The indexer of [sort_values]: for a descending sort the keys and their
    positions are reversed, sorted ascending, and the result is reversed
    again. *)
Definition nargsort (P : pandas) (items : list Q) (ascending : bool)
  : list nat :=
  let idx := seq 0 (List.length items) in
  if ascending then take idx (argsort P items)
  else rev (take (rev idx) (argsort P (rev items))).

(** [frame.sort_values(by, ascending=...)], [key] reading the [by] column
    of a row. *)
Definition sort_values {A} (P : pandas) (key : A -> Q) (ascending : bool)
    (frame : list A) : list A :=
  take frame (nargsort P (map key frame) ascending).

(** The sorted distinct keys of a [groupby]. *)
Fixpoint insert_key (k : string) (keys : list string) : list string :=
  match keys with
  | [] => [k]
  | x :: keys' =>
      match String.compare k x with
      | Lt => k :: keys
      | Eq => keys
      | Gt => x :: insert_key k keys'
      end
  end.

Definition group_keys (labels : list string) : list string :=
  fold_right insert_key [] labels.

(** [frame.groupby(by).sum()] on a frame of two columns, the label and
    the number: one row per distinct label, in ascending order of label
    ([sort=True] is [groupby]'s default), with the sum of its numbers. *)
Definition groupby_sum (frame : list (string * Q)) : list (string * Q) :=
  map (fun k =>
         (k, series_sum
               (map snd (filter (fun row => String.eqb (fst row) k) frame))))
      (group_keys (map fst frame)).

(** ** The class [ExpenseManager] *)

(** A row of the table after [convert_all_cols]. *)
Record ExpenseRecord : Type := {
  date : Date;
  product : string;
  value : Q;
  category : string;
  payment_method : string;
  priority : bool;
  my_expense : bool;
  fixed_expense : bool;
  details : string
}.

Definition DataFrame : Type := list ExpenseRecord.

(** A converted cell. *)
Inductive cell : Type :=
| CDate (d : Date)
| CStr (s : string)
| CNum (q : Q)
| CBool (b : bool).

(** The object: [self.csv_file] and [self.df_exp]. *)
Record Self : Type := {
  csv_file : string;
  df_exp : DataFrame
}.

(** What [print] received. The text of a number and of a frame is pandas'
    and Python's formatting; the printed value itself is recorded. *)
Inductive printed : Type :=
| PText (s : string)
| PTotal (label : string) (total : Q)
| PItems (rows : list (Date * string * Q * string))
| PGroups (rows : list (string * Q)).

Record World : Type := {
  self : Self;
  stdout : list printed
}.

(** Methods: they read the object, may print, may raise. *)
Definition M (A : Type) : Type := World -> result A * World.

Definition ret {A} (a : A) : M A := fun w => (Ok a, w).

Definition raise {A} (e : exn) : M A := fun w => (Raise e, w).

Definition bind {A B} (m : M A) (k : A -> M B) : M B :=
  fun w =>
    match m w with
    | (Ok a, w') => k a w'
    | (Raise e, w') => (Raise e, w')
    end.

Definition get_df_exp : M DataFrame := fun w => (Ok (df_exp (self w)), w).

Definition print (p : printed) : M unit :=
  fun w => (Ok tt, {| self := self w; stdout := stdout w ++ [p] |}).

Notation "x <- m ;; k" := (bind m (fun x => k))
  (at level 61, m at next level, right associativity).
Notation "m ;;; k" := (bind m (fun _ => k))
  (at level 61, right associativity).

Definition nl : string := String "010"%char EmptyString.

Definition show_bars : M unit := print (PText (Str.times "=" 50)).

Module ExpenseManager.

Definition NUM_FORMAT := "numeric".
Definition DATE_FORMAT := "date".
Definition STR_FORMAT := "string".
Definition BOOL_FORMAT := "bool".

Definition DATE_STR_FMT := "%m/%d/%Y".

Definition DT_COL := "date".
Definition PROD_COL := "product".
Definition VAL_COL := "value".
Definition CATEG_COL := "category".
Definition PAY_COL := "payment_method".
Definition PRIOR_COL := "priority".
Definition MY_EXP_COL := "my_expense".
Definition FIX_EXP_COL := "fixed_expense".
Definition DETAILS_COL := "details".

(** [convert_col] on the cells of column [col_name], read as text. *)
Definition convert_col (P : pandas) (cells : list string)
    (data_type : string) : result (list cell) :=
  if data_type =? NUM_FORMAT then
    rmap (fun s =>
            match to_numeric P s with
            | Some q => Ok (CNum q)
            | None => Raise (ValueError s)
            end)
         (map (Str.replace "," ".") cells)
  else if data_type =? DATE_FORMAT then
    rmap (fun s =>
            match to_datetime P s DATE_STR_FMT with
            | Some d => Ok (CDate d)
            | None => Raise (ValueError s)
            end)
         cells
  else if data_type =? STR_FORMAT then
    Ok (map CStr cells)
  else if data_type =? BOOL_FORMAT then
    Ok (map (fun s => CBool (Str.truth s)) (map (Str.replace "no" "") cells))
  else
    Raise (PyException ("[!] Invalid format " ++ data_type ++ "!")).

(** The columns of the frame, as the csv header names them. *)
Definition columns : list string :=
  [DT_COL; PROD_COL; VAL_COL; CATEG_COL; PAY_COL; PRIOR_COL; MY_EXP_COL;
   FIX_EXP_COL; DETAILS_COL].

(** [row[col]]; [None] when the frame has no such column. *)
Definition getitem (col : string) (r : ExpenseRecord) : option cell :=
  if col =? DT_COL then Some (CDate (date r))
  else if col =? PROD_COL then Some (CStr (product r))
  else if col =? VAL_COL then Some (CNum (value r))
  else if col =? CATEG_COL then Some (CStr (category r))
  else if col =? PAY_COL then Some (CStr (payment_method r))
  else if col =? PRIOR_COL then Some (CBool (priority r))
  else if col =? MY_EXP_COL then Some (CBool (my_expense r))
  else if col =? FIX_EXP_COL then Some (CBool (fixed_expense r))
  else if col =? DETAILS_COL then Some (CStr (details r))
  else None.

(** [cell == filter_val] as a column comparison does it for a
    [filter_val] that is a [str] or [None]: text compares with text; a
    timestamp with the timestamp the text reads as; a number or a boolean
    is never equal to a text; nothing is equal to [None]. *)
Definition cell_eq (P : pandas) (c : cell) (filter_val : option string)
  : bool :=
  match filter_val, c with
  | None, _ => false
  | Some v, CStr s => s =? v
  | Some v, CDate d =>
      match Timestamp P v with
      | Some t => date_eqb d t
      | None => false
      end
  | Some v, CNum _ => false
  | Some v, CBool _ => false
  end.

Definition get_sum (df_filtered : DataFrame) : M Q :=
  let sum_col_val := series_sum (map value df_filtered) in
  ret (round sum_col_val 2).

Definition get_sum_by_date (P : pandas) (df_base : DataFrame)
    (filter_date : string) : M Q :=
  match Timestamp P filter_date with
  | None => raise (ValueError filter_date)
  | Some dt_time =>
      let df_filter_dt := filter (fun r => date_geb (date r) dt_time) df_base in
      get_sum df_filter_dt
  end.

Definition get_filtered_df (P : pandas) (filter_col : option string)
    (filter_val : option string) (my_own_exp : bool) : M DataFrame :=
  df <- get_df_exp ;;
  let df_my_exp := filter (fun r => Bool.eqb (my_expense r) my_own_exp) df in
  match filter_col with
  | None => raise (KeyError None)
  | Some col =>
      if existsb (String.eqb col) columns then
        let df_filtered :=
          filter (fun r => match getitem col r with
                           | Some c => cell_eq P c filter_val
                           | None => false
                           end) df_my_exp in
        ret df_filtered
      else raise (KeyError filter_col)
  end.

Definition summary (P : pandas) : M unit :=
  df_debit <- get_filtered_df P (Some PAY_COL) (Some "debit") true ;;
  sum_debit <- get_sum df_debit ;;

  df_credit <- get_filtered_df P (Some PAY_COL) (Some "credit") true ;;
  let filter_credit_date := "2023-10-01" in
  sum_credit <- get_sum_by_date P df_credit filter_credit_date ;;

  show_bars ;;;
  let filter_cols := fun r => (date r, product r, value r, category r) in
  let sort_col := fun row : Date * string * Q * string => snd (fst row) in

  print (PTotal "Sum of all debit expenses:  $" sum_debit) ;;;
  print (PText (nl ++ "Most expensive items paid in debit: ")) ;;;
  print (PItems
           (firstn 3 (sort_values P sort_col false (map filter_cols df_debit)))) ;;;
  print (PText (nl ++ "Most expensive categories paid in debit: ")) ;;;

  let grp_cols := fun r => (category r, value r) in
  let df_debit_summed := groupby_sum (map grp_cols df_debit) in
  print (PGroups (firstn 3 (sort_values P snd false df_debit_summed))) ;;;
  show_bars ;;;

  show_bars ;;;
  print (PTotal "Sum of all credit expenses: $" sum_credit) ;;;
  print (PText (nl ++ "Most expensive items paid in credit: ")) ;;;
  print (PItems
           (firstn 3 (sort_values P sort_col false (map filter_cols df_credit)))) ;;;
  print (PText (nl ++ "Most expensive categories paid in credit: ")) ;;;
  let df_credit_summed := groupby_sum (map grp_cols df_credit) in
  print (PGroups (firstn 3 (sort_values P snd false df_credit_summed))) ;;;
  show_bars.

End ExpenseManager.

(** ** Loading the table

    [self.df_exp] while [convert_all_cols] runs: the columns by name, each
    a list of cells.  A column as it was read from the file holds text
    ([CStr]); a converted column holds cells of its type. *)

Definition Frame : Type := list (string * list cell).

(** How a call on the frame ends: it returns, it raises, or it meets a
    column that does not hold text.  On such a column the [.str] accessor
    of the numeric and boolean conversions raises [AttributeError]; what
    [to_datetime] and [astype(str)] make of it is not modelled. *)
Inductive outcome : Type :=
| Returned
| Raised (e : exn)
| NotText (col : string).

Module Loading.

(** [frame[col]]. *)
Fixpoint getcol (col : string) (df : Frame) : option (list cell) :=
  match df with
  | [] => None
  | (c, cells) :: df' => if c =? col then Some cells else getcol col df'
  end.

(** [frame[col] = cells]: the column is replaced where it stands, a new
    one goes last. *)
Fixpoint setcol (col : string) (cells : list cell) (df : Frame) : Frame :=
  match df with
  | [] => [(col, cells)]
  | (c, old) :: df' =>
      if c =? col then (c, cells) :: df' else (c, old) :: setcol col cells df'
  end.

(** The text of a column all of whose cells are text. *)
Fixpoint as_text (cells : list cell) : option (list string) :=
  match cells with
  | [] => Some []
  | CStr s :: cells' => option_map (cons s) (as_text cells')
  | _ :: _ => None
  end.

(** [frame[col_name]] read as text, handed to [k]. *)
Definition with_text (col_name : string) (df : Frame)
    (k : list string -> outcome * Frame) : outcome * Frame :=
  match getcol col_name df with
  | None => (Raised (KeyError (Some col_name)), df)
  | Some cells =>
      match as_text cells with
      | None => (NotText col_name, df)
      | Some texts => k texts
      end
  end.

(** [frame[col_name] = <the converted cells>], unless the conversion
    raises. *)
Definition assign_converted (P : pandas) (col_name data_type : string)
    (texts : list string) (df : Frame) : outcome * Frame :=
  match ExpenseManager.convert_col P texts data_type with
  | Ok cells => (Returned, setcol col_name cells df)
  | Raise e => (Raised e, df)
  end.

(** The method [convert_col] on the frame.  The numeric and the boolean
    conversion assign the column twice: first the replaced text, then the
    converted cells. *)
Definition convert_col (P : pandas) (col_name data_type : string)
    (df : Frame) : outcome * Frame :=
  if data_type =? ExpenseManager.NUM_FORMAT then
    with_text col_name df (fun texts =>
      let df := setcol col_name
                  (map CStr (map (Str.replace "," ".") texts)) df in
      assign_converted P col_name data_type texts df)
  else if data_type =? ExpenseManager.DATE_FORMAT then
    with_text col_name df (fun texts =>
      assign_converted P col_name data_type texts df)
  else if data_type =? ExpenseManager.STR_FORMAT then
    with_text col_name df (fun texts =>
      assign_converted P col_name data_type texts df)
  else if data_type =? ExpenseManager.BOOL_FORMAT then
    with_text col_name df (fun texts =>
      let df := setcol col_name
                  (map CStr (map (Str.replace "no" "") texts)) df in
      assign_converted P col_name data_type texts df)
  else
    (Raised (PyException ("[!] Invalid format " ++ data_type ++ "!")), df).

Definition col_dict : list (string * string) :=
  [ (ExpenseManager.DT_COL, ExpenseManager.DATE_FORMAT);
    (ExpenseManager.PROD_COL, ExpenseManager.STR_FORMAT);
    (ExpenseManager.VAL_COL, ExpenseManager.NUM_FORMAT);
    (ExpenseManager.CATEG_COL, ExpenseManager.STR_FORMAT);
    (ExpenseManager.PAY_COL, ExpenseManager.STR_FORMAT);
    (ExpenseManager.PRIOR_COL, ExpenseManager.BOOL_FORMAT);
    (ExpenseManager.MY_EXP_COL, ExpenseManager.BOOL_FORMAT);
    (ExpenseManager.FIX_EXP_COL, ExpenseManager.BOOL_FORMAT);
    (ExpenseManager.DETAILS_COL, ExpenseManager.STR_FORMAT) ].

(** [for col, col_type in items: self.convert_col(col, col_type)]. *)
Fixpoint for_each (P : pandas) (items : list (string * string)) (df : Frame)
  : outcome * Frame :=
  match items with
  | [] => (Returned, df)
  | (col, col_type) :: items' =>
      match convert_col P col col_type df with
      | (Returned, df') => for_each P items' df'
      | stopped => stopped
      end
  end.

Definition convert_all_cols (P : pandas) (df : Frame) : outcome * Frame :=
  for_each P col_dict df.

End Loading.

(** ** Loading the module

    What executing [expense_manager.py] binds and which names it looks up
    while doing so.  A [def] statement evaluates the defaults and the
    annotations of its parameters and its return annotation when it is
    executed (the semantics of Python before 3.14; there is no
    [from __future__ import annotations] in the file); its body is not
    run.  A class body runs in its own namespace,
    on top of the module's globals and the builtins. *)

Module Python.

Inductive expr : Type :=
| Name (id : string)
| Attribute (e : expr) (attr : string)
| Constant.

Record arg : Type := {
  arg_name : string;
  annotation : option expr;
  default : option expr
}.

(** A statement of a class body. *)
Inductive member : Type :=
| Docstring
| Assign (target : string) (rhs : expr)
| MethodDef (name : string) (args : list arg) (returns : option expr).

(** A statement at module level. *)
Inductive stmt : Type :=
| Import (module : string) (asname : option string)
| FunctionDef (name : string) (args : list arg) (returns : option expr)
| ClassDef (name : string) (body : list member).

Definition builtins : list string :=
  ["str"; "float"; "bool"; "int"; "print"; "Exception"].

Definition bound (id : string) (scope : list string) : bool :=
  existsb (String.eqb id) scope.

(** Evaluating an expression looks up the name at its root. *)
Fixpoint eval (scope : list string) (e : expr) : result unit :=
  match e with
  | Name id => if bound id scope then Ok tt else Raise (NameError id)
  | Attribute e' _ => eval scope e'
  | Constant => Ok tt
  end.

Definition eval_opt (scope : list string) (e : option expr) : result unit :=
  match e with
  | Some e' => eval scope e'
  | None => Ok tt
  end.

Fixpoint eval_all (scope : list string) (es : list (option expr))
  : result unit :=
  match es with
  | [] => Ok tt
  | e :: es' => rbind (eval_opt scope e) (fun _ => eval_all scope es')
  end.

(** Executing [def name(args) -> returns]: the defaults, then the
    annotations. *)
Definition exec_def (scope : list string) (args : list arg)
    (returns : option expr) : result unit :=
  rbind (eval_all scope (map default args)) (fun _ =>
  rbind (eval_all scope (map annotation args)) (fun _ =>
  eval_opt scope returns)).

(** The class body, statement by statement; [locals] are the names the
    body has bound so far. *)
Fixpoint exec_body (globals locals : list string) (body : list member)
  : result (list string) :=
  match body with
  | [] => Ok locals
  | Docstring :: body' => exec_body globals locals body'
  | Assign target rhs :: body' =>
      rbind (eval (locals ++ globals ++ builtins) rhs) (fun _ =>
      exec_body globals (locals ++ [target]) body')
  | MethodDef name args returns :: body' =>
      rbind (exec_def (locals ++ globals ++ builtins) args returns) (fun _ =>
      exec_body globals (locals ++ [name]) body')
  end.

(** The module, statement by statement: the names it binds. *)
Fixpoint exec_module (globals : list string) (m : list stmt)
  : result (list string) :=
  match m with
  | [] => Ok globals
  | Import module asname :: m' =>
      exec_module (globals ++ [match asname with
                               | Some a => a
                               | None => module
                               end]) m'
  | FunctionDef name args returns :: m' =>
      rbind (exec_def (globals ++ builtins) args returns) (fun _ =>
      exec_module (globals ++ [name]) m')
  | ClassDef name body :: m' =>
      rbind (exec_body globals [] body) (fun _ =>
      exec_module (globals ++ [name]) m')
  end.

Definition plain (name : string) : arg :=
  {| arg_name := name; annotation := None; default := None |}.

Definition annotated (name : string) (a : expr) : arg :=
  {| arg_name := name; annotation := Some a; default := None |}.

Definition defaulted (name : string) (a : expr) : arg :=
  {| arg_name := name; annotation := Some a; default := Some Constant |}.

(** The class body of [ExpenseManager], with the annotation of
    [get_sum]'s parameter [df_filtered] as a parameter of the
    description. *)
Definition class_body (df_filtered_annotation : expr) : list member :=
  [ Docstring;
    Assign "NUM_FORMAT" Constant;
    Assign "DATE_FORMAT" Constant;
    Assign "STR_FORMAT" Constant;
    Assign "BOOL_FORMAT" Constant;
    Assign "DELIMITER" Constant;
    Assign "DATE_STR_FMT" Constant;
    Assign "DT_COL" Constant;
    Assign "PROD_COL" Constant;
    Assign "VAL_COL" Constant;
    Assign "CATEG_COL" Constant;
    Assign "PAY_COL" Constant;
    Assign "PRIOR_COL" Constant;
    Assign "MY_EXP_COL" Constant;
    Assign "FIX_EXP_COL" Constant;
    Assign "DETAILS_COL" Constant;
    MethodDef "__init__"
      [plain "self"; annotated "csv_file" (Name "str")] None;
    MethodDef "convert_col"
      [plain "self"; annotated "col_name" (Name "str");
       annotated "data_type" (Name "str")] None;
    MethodDef "convert_all_cols" [plain "self"] None;
    MethodDef "get_sum"
      [plain "self"; annotated "df_filtered" df_filtered_annotation]
      (Some (Name "float"));
    MethodDef "get_sum_by_date"
      [plain "self";
       annotated "df_base" (Attribute (Name "pd") "DataFrame");
       annotated "filter_date" (Name "str")]
      (Some (Name "float"));
    MethodDef "get_filtered_df"
      [plain "self"; defaulted "filter_col" (Name "str");
       defaulted "filter_val" (Name "str");
       defaulted "my_own_exp" (Name "bool")] None;
    MethodDef "summary" [plain "self"] None ].

Definition module_with (df_filtered_annotation : expr) : list stmt :=
  [ Import "pandas" (Some "pd");
    FunctionDef "show_bars" [] None;
    ClassDef "ExpenseManager" (class_body df_filtered_annotation) ].

(** [expense_manager.py] as written: [df_filtered: pandas.DataFrame]. *)
Definition expense_manager : list stmt :=
  module_with (Attribute (Name "pandas") "DataFrame").

(** [import expense_manager]. *)
Definition import_module (m : list stmt) : result (list string) :=
  exec_module [] m.

End Python.

(** ** Two instances of the library

    Their [argsort] is an insertion sort of the (position, key) pairs, the
    new pair going before the first pair it is [before]. *)

Fixpoint insert_pair (before : Q -> Q -> bool) (x : nat * Q)
    (l : list (nat * Q)) : list (nat * Q) :=
  match l with
  | [] => [x]
  | y :: l' =>
      if before (snd x) (snd y) then x :: l
      else y :: insert_pair before x l'
  end.

Definition insertion_argsort (before : Q -> Q -> bool) (ks : list Q)
  : list nat :=
  map fst (fold_right (insert_pair before) []
             (combine (seq 0 (List.length ks)) ks)).

(** numpy's quicksort for [argsort], after its C source
    ([aquicksort]): [tosort] holds the positions, [v] the keys; a range of
    more than [SMALL_QUICKSORT] positions is partitioned around the median
    of its first, middle and last key, a shorter one is sorted by
    insertion.  The loops of the C code run here on fuel, which the length
    of the array bounds; the heapsort that takes over when the partitions
    degenerate is not modelled, the range is then sorted by insertion. *)
Module Numpy.



(** [v[*p]]. *)
Definition key (v : list Q) (tosort : list nat) (p : nat) : Q :=
  nth (nth p tosort 0%nat) v 0.











End Numpy.

(** The numbers are in ascending order. *)
Fixpoint ascending (l : list Q) : bool :=
  match l with
  | x :: (y :: _) as l' => Qle_bool x y && ascending l'
  | _ => true
  end.



(** The literal dates [YYYY-MM-DD] that [Timestamp] reads in the two
    instances. *)
Definition iso_date (s : string) : option Date :=
  match digits 0 0 (substring 0 4 s),
        digits 0 0 (substring 5 2 s),
        digits 0 0 (substring 8 2 s) with
  | Some (y, 4%nat), Some (m, 2%nat), Some (d, 2%nat) =>
      if (String.length s =? 10)%nat
         && (substring 4 1 s =? "-") && (substring 7 1 s =? "-")
      then Some (mkDate y m d) else None
  | _, _, _ => None
  end.

(** The literal dates [MM/DD/YYYY] that [to_datetime] reads there. *)
Definition mdy_date (s : string) : option Date :=
  match digits 0 0 (substring 0 2 s),
        digits 0 0 (substring 3 2 s),
        digits 0 0 (substring 6 4 s) with
  | Some (m, 2%nat), Some (d, 2%nat), Some (y, 4%nat) =>
      if (String.length s =? 10)%nat
         && (substring 2 1 s =? "/") && (substring 5 1 s =? "/")
      then Some (mkDate y m d) else None
  | _, _, _ => None
  end.

Import ExpenseManager.

Local Open Scope list_scope.

(** * The vocabulary of the properties *)

Definition descending {A} (key : A -> Q) (x y : A) : Prop := key y <= key x.



(** The mask [frame[col] == filter_val] at a row. *)
Definition row_eq (P : pandas) (col : string) (filter_val : option string)
    (r : ExpenseRecord) : bool :=
  match getitem col r with
  | Some c => cell_eq P c filter_val
  | None => false
  end.

(** The user's own rows paid by [method]. *)
Definition own_paid_by (method : string) (df : DataFrame) : DataFrame :=
  filter (fun r => my_expense r && (payment_method r =? method)) df.

(** The rows dated [d] or later. *)
Definition since (d : Date) (df : DataFrame) : DataFrame :=
  filter (fun r => date_geb (date r) d) df.

Definition total (df : DataFrame) : Q :=
  round (series_sum (map value df)) 2.

Definition item_row (r : ExpenseRecord) : Date * string * Q * string :=
  (date r, product r, value r, category r).

Definition item_value (row : Date * string * Q * string) : Q :=
  snd (fst row).

Definition group_row (r : ExpenseRecord) : string * Q :=
  (category r, value r).

(** The three most expensive items of [df], as [summary] lists them. *)
Definition top_items (P : pandas) (df : DataFrame)
  : list (Date * string * Q * string) :=
  firstn 3 (sort_values P item_value false (map item_row df)).

(** The three most expensive categories of [df], as [summary] lists
    them. *)
Definition top_groups (P : pandas) (df : DataFrame) : list (string * Q) :=
  firstn 3 (sort_values P snd false (groupby_sum (map group_row df))).

Definition bars : printed := PText (Str.times "=" 50).

Definition threshold : Date := mkDate 2023 10 1.

(** Everything [summary] prints for the table [df], in order. *)
Definition summary_output (P : pandas) (df : DataFrame) : list printed :=
  [ bars;
    PTotal "Sum of all debit expenses:  $" (total (own_paid_by "debit" df));
    PText (nl ++ "Most expensive items paid in debit: ");
    PItems (top_items P (own_paid_by "debit" df));
    PText (nl ++ "Most expensive categories paid in debit: ");
    PGroups (top_groups P (own_paid_by "debit" df));
    bars;
    bars;
    PTotal "Sum of all credit expenses: $"
           (total (since threshold (own_paid_by "credit" df)));
    PText (nl ++ "Most expensive items paid in credit: ");
    PItems (top_items P (own_paid_by "credit" df));
    PText (nl ++ "Most expensive categories paid in credit: ");
    PGroups (top_groups P (own_paid_by "credit" df));
    bars ].

(** Deleting the occurrences of ["no"], said directly: at an ["n"]
    followed by an ["o"] both characters go, any other character stays. *)
Fixpoint delete_no (s : string) : string :=
  match s with
  | EmptyString => EmptyString
  | String c r =>
      match r with
      | EmptyString => String c EmptyString
      | String c' r' =>
          if (Ascii.eqb c "n" && Ascii.eqb c' "o")%bool then delete_no r'
          else String c (delete_no r)
      end
  end.

(** Replacing one character by another, said directly. *)
Fixpoint map_char (f : ascii -> ascii) (s : string) : string :=
  match s with
  | EmptyString => EmptyString
  | String c r => String (f c) (map_char f r)
  end.

Definition swap_char (old new c : ascii) : ascii :=
  if Ascii.eqb c old then new else c.

Definition readonly {A} (m : M A) : Prop :=
  forall w, self (snd (m w)) = self w.


(** [b] is the day [a] or a later one. *)
Definition on_or_after (a b : Date) : Prop :=
  (year a < year b
   \/ (year a = year b
       /\ (month a < month b \/ (month a = month b /\ day a <= day b))))%Z.

(** [top] is a choice of the [n] rows of [frame] with the largest keys,
    largest first: it is in descending order of key, it has [n] rows (all
    of them when the frame has fewer), and the rows it leaves out make up
    the frame with it and have keys no larger than the rows it holds. *)
Definition top_selection {A} (n : nat) (key : A -> Q) (top frame : list A)
  : Prop :=
  StronglySorted (descending key) top
  /\ List.length top = Nat.min n (List.length frame)
  /\ exists rest,
      Permutation (top ++ rest) frame
      /\ forall x y, In x top -> In y rest -> key y <= key x.


(** A table for the examples: two debit rows and three credit rows of
    the user, one of the credit rows dated before 2023-10-01, and a row
    that is not the user's. *)
Definition expense (d : Date) (p : string) (v : Q) (c pay : string)
    (mine : bool) : ExpenseRecord :=
  {| date := d; product := p; value := v; category := c;
     payment_method := pay; priority := false; my_expense := mine;
     fixed_expense := false; details := "" |}.

Definition sample_table : DataFrame :=
  [ expense (mkDate 2023 9 1) "tv" 900 "home" "credit" true;
    expense (mkDate 2023 10 1) "book" 10 "fun" "credit" true;
    expense (mkDate 2023 10 5) "game" 10 "fun" "credit" true;
    expense (mkDate 2023 10 2) "bread" 3 "food" "debit" true;
    expense (mkDate 2023 10 3) "milk" 3 "drink" "debit" true;
    expense (mkDate 2023 10 3) "gift" 30 "food" "debit" false ].

Definition sample_world : World :=
  {| self := {| csv_file := "expenses.csv"; df_exp := sample_table |};
     stdout := [] |}.




(** The sum of the numbers of the rows labelled [k]. *)
Definition group_total (frame : list (string * Q)) (k : string) : Q :=
  series_sum (map snd (filter (fun row => String.eqb (fst row) k) frame)).

(** What [summary] printed right after the text [label]. *)
Fixpoint printed_after (label : string) (out : list printed)
  : option printed :=
  match out with
  | [] => None
  | PText s :: rest =>
      if s =? label then hd_error rest else printed_after label rest
  | _ :: rest => printed_after label rest
  end.




(** ** The vocabulary of loading *)

(** The frame before the last assignment of [convert_col]. *)
Definition replaced_text (col_name data_type : string) (texts : list string)
    (df : Frame) : Frame :=
  if data_type =? NUM_FORMAT then
    Loading.setcol col_name (map CStr (map (Str.replace "," ".") texts)) df
  else if data_type =? BOOL_FORMAT then
    Loading.setcol col_name (map CStr (map (Str.replace "no" "") texts)) df
  else df.

(** The nine columns of the file, as text. *)
Record TextColumns : Type := {
  t_date : list string;
  t_product : list string;
  t_value : list string;
  t_category : list string;
  t_payment_method : list string;
  t_priority : list string;
  t_my_expense : list string;
  t_fixed_expense : list string;
  t_details : list string
}.

(** The frame holds the nine columns as text (in any order, beside any
    other column). *)
Definition reads_as (df : Frame) (t : TextColumns) : Prop :=
  Loading.getcol DT_COL df = Some (map CStr (t_date t))
  /\ Loading.getcol PROD_COL df = Some (map CStr (t_product t))
  /\ Loading.getcol VAL_COL df = Some (map CStr (t_value t))
  /\ Loading.getcol CATEG_COL df = Some (map CStr (t_category t))
  /\ Loading.getcol PAY_COL df = Some (map CStr (t_payment_method t))
  /\ Loading.getcol PRIOR_COL df = Some (map CStr (t_priority t))
  /\ Loading.getcol MY_EXP_COL df = Some (map CStr (t_my_expense t))
  /\ Loading.getcol FIX_EXP_COL df = Some (map CStr (t_fixed_expense t))
  /\ Loading.getcol DETAILS_COL df = Some (map CStr (t_details t)).

(** The boolean cells of a text column. *)
Definition bool_cells (texts : list string) : list cell :=
  map (fun s => CBool (Str.truth (Str.replace "no" "" s))) texts.

(** The frame after the date, product and value columns were assigned,
    the value column either converted or left as replaced text. *)
Definition after_value (df : Frame) (t : TextColumns) (ds vs : list cell)
  : Frame :=
  Loading.setcol VAL_COL vs
    (Loading.setcol VAL_COL (map CStr (map (Str.replace "," ".") (t_value t)))
       (Loading.setcol PROD_COL (map CStr (t_product t))
          (Loading.setcol DT_COL ds df))).

Definition after_all (df : Frame) (t : TextColumns) (ds vs : list cell)
  : Frame :=
  Loading.setcol DETAILS_COL (map CStr (t_details t))
    (Loading.setcol FIX_EXP_COL (bool_cells (t_fixed_expense t))
       (Loading.setcol FIX_EXP_COL
          (map CStr (map (Str.replace "no" "") (t_fixed_expense t)))
          (Loading.setcol MY_EXP_COL (bool_cells (t_my_expense t))
             (Loading.setcol MY_EXP_COL
                (map CStr (map (Str.replace "no" "") (t_my_expense t)))
                (Loading.setcol PRIOR_COL (bool_cells (t_priority t))
                   (Loading.setcol PRIOR_COL
                      (map CStr (map (Str.replace "no" "") (t_priority t)))
                      (Loading.setcol PAY_COL
                         (map CStr (t_payment_method t))
                         (Loading.setcol CATEG_COL
                            (map CStr (t_category t))
                            (after_value df t ds vs))))))))).

(** The cell [c] is the text [s] converted to [data_type]. *)
Definition converted (P : pandas) (data_type : string) (s : string)
    (c : cell) : Prop :=
  (data_type = NUM_FORMAT
   /\ exists q, to_numeric P (Str.replace "," "." s) = Some q /\ c = CNum q)
  \/ (data_type = DATE_FORMAT
      /\ exists d, to_datetime P s DATE_STR_FMT = Some d /\ c = CDate d)
  \/ (data_type = STR_FORMAT /\ c = CStr s)
  \/ (data_type = BOOL_FORMAT
      /\ c = CBool (Str.truth (Str.replace "no" "" s))).

(** The user's own rows paid by debit or by credit. *)
Definition summarised (r : ExpenseRecord) : bool :=
  my_expense r
  && ((payment_method r =? "debit") || (payment_method r =? "credit")).

(** Nine text columns with the given dates and values. *)
Definition sample_columns (dates values : list string) : TextColumns :=
  {| t_date := dates;
     t_product := ["bread"; "gift"];
     t_value := values;
     t_category := ["food"; "food"];
     t_payment_method := ["debit"; "debit"];
     t_priority := ["yes"; "no"];
     t_my_expense := ["yes"; "no"];
     t_fixed_expense := ["nono"; "none"];
     t_details := ["-"; "birthday"] |}.

(** The frame as [read_csv] hands it over: the columns in the order of
    the file, every cell a text. *)
Definition text_frame (t : TextColumns) : Frame :=
  [ (DT_COL, map CStr (t_date t));
    (PROD_COL, map CStr (t_product t));
    (VAL_COL, map CStr (t_value t));
    (CATEG_COL, map CStr (t_category t));
    (PAY_COL, map CStr (t_payment_method t));
    (PRIOR_COL, map CStr (t_priority t));
    (MY_EXP_COL, map CStr (t_my_expense t));
    (FIX_EXP_COL, map CStr (t_fixed_expense t));
    (DETAILS_COL, map CStr (t_details t)) ].

Definition sample_text : TextColumns :=
  sample_columns ["10/02/2023"; "10/03/2023"] ["3,50"; "30"].

Definition sample_frame : Frame := text_frame sample_text.

(** A table with no row of the user paid by debit or by credit. *)
Definition others_world : World :=
  {| self := {| csv_file := "expenses.csv";
                df_exp :=
                  [ expense (mkDate 2023 10 3) "gift" 30 "food" "debit" false;
                    expense (mkDate 2023 10 4) "bus" 2 "travel" "cash" true ] |};
     stdout := [] |}.

(** * Properties *)

(** ** The sort kinds meet numpy's contract *)

Section InsertionArgsort.

Variable before : Q -> Q -> bool.
Hypothesis before_le : forall x y, before x y = true -> x <= y.
Hypothesis not_before_le : forall x y, before x y = false -> y <= x.

Let by_key (a b : nat * Q) : Prop := snd a <= snd b.

Lemma insert_pair_perm x l :
  Permutation (insert_pair before x l) (x :: l).
Proof.
  induction l as [|y l IH]; simpl; [reflexivity|].
  destruct (before (snd x) (snd y)); [reflexivity|].
  rewrite IH. apply perm_swap.
Qed.

Lemma isort_perm l :
  Permutation (fold_right (insert_pair before) [] l) l.
Proof.
  induction l as [|x l IH]; simpl; [reflexivity|].
  rewrite insert_pair_perm. now constructor.
Qed.

Lemma insert_pair_sorted x l :
  StronglySorted by_key l -> StronglySorted by_key (insert_pair before x l).
Proof.
  induction 1 as [|y l Hs IH Hy]; simpl.
  - repeat constructor.
  - destruct (before (snd x) (snd y)) eqn:E.
    + constructor; [now constructor|].
      apply before_le in E.
      constructor; [exact E|].
      eapply Forall_impl; [|exact Hy].
      intros a Ha. unfold by_key in *. now apply Qle_trans with (snd y).
    + constructor; [exact IH|].
      apply not_before_le in E.
      eapply Permutation_Forall.
      * symmetry. apply insert_pair_perm.
      * constructor; assumption.
Qed.

Lemma isort_sorted l :
  StronglySorted by_key (fold_right (insert_pair before) [] l).
Proof.
  induction l; simpl; [constructor|now apply insert_pair_sorted].
Qed.

Lemma map_fst_combine {A B} (a : list A) (b : list B) :
  List.length a = List.length b -> map fst (combine a b) = a.
Proof.
  revert b; induction a as [|x a IH]; intros [|y b] H; simpl in *;
    try discriminate; [reflexivity|].
  f_equal. apply IH. congruence.
Qed.

Lemma combine_seq_nth (ks : list Q) (start : nat) :
  Forall (fun p => nth (fst p - start) ks 0 = snd p /\ (start <= fst p)%nat)
         (combine (seq start (List.length ks)) ks).
Proof.
  revert start; induction ks as [|k ks IH]; intros start; simpl.
  - constructor.
  - constructor.
    + simpl. rewrite Nat.sub_diag. split; [reflexivity|lia].
    + eapply Forall_impl; [|apply (IH (S start))].
      intros [i q] [H1 H2]; simpl in *. split; [|lia].
      replace (i - start)%nat with (S (i - S start)) by lia. exact H1.
Qed.

Lemma insertion_argsort_perm ks :
  Permutation (insertion_argsort before ks) (seq 0 (List.length ks)).
Proof.
  unfold insertion_argsort.
  rewrite isort_perm, map_fst_combine; [reflexivity|].
  now rewrite length_seq.
Qed.

Lemma insertion_argsort_sorted ks :
  Sorted Qle (map (fun i => nth i ks 0) (insertion_argsort before ks)).
Proof.
  unfold insertion_argsort.
  set (l := fold_right _ _ _).
  assert (Hl : Forall (fun p => nth (fst p) ks 0 = snd p) l).
  { eapply Permutation_Forall; [symmetry; apply isort_perm|].
    eapply Forall_impl; [|apply (combine_seq_nth ks 0)].
    intros [i q] [H _]; simpl in *. now rewrite Nat.sub_0_r in H. }
  assert (Hs : StronglySorted by_key l) by apply isort_sorted.
  rewrite map_map.
  apply StronglySorted_Sorted.
  clearbody l. induction Hs as [|p l Hs IH Hp]; simpl; [constructor|].
  inversion Hl as [|? ? H1 H2]; subst.
  constructor; [now apply IH|].
  rewrite Forall_map.
  rewrite Forall_forall in *. intros b Hb.
  rewrite H1, (H2 b Hb). now apply Hp.
Qed.

End InsertionArgsort.

Lemma Qle_bool_le x y : Qle_bool x y = true -> x <= y.
Proof. apply Qle_bool_imp_le. Qed.

Lemma Qle_bool_false x y : Qle_bool x y = false -> y <= x.
Proof.
  intros H. apply Qlt_le_weak, Qnot_le_lt. intros C.
  apply Qle_bool_iff in C. congruence.
Qed.

(** An insertion sort, which keeps equal keys in their order. *)
Definition stable_kind : pandas := {|
  argsort := insertion_argsort Qle_bool;
  argsort_perm := insertion_argsort_perm Qle_bool;
  argsort_sorted :=
    insertion_argsort_sorted Qle_bool Qle_bool_le Qle_bool_false;
  to_numeric := decimal_literal;
  to_numeric_decimal := fun s q H => H;
  to_datetime := fun s fmt => mdy_date s;
  Timestamp := iso_date;
  Timestamp_2023_10_01 := eq_refl
|}.






(** ** Rows taken by position *)

Lemma take_app {A} (rows : list A) (i j : list nat) :
  take rows (i ++ j) = take rows i ++ take rows j.
Proof. unfold take. apply flat_map_app. Qed.

Lemma take_rev {A} (rows : list A) (indexer : list nat) :
  take rows (rev indexer) = rev (take rows indexer).
Proof.
  induction indexer as [|i l IH]; [reflexivity|].
  simpl rev. rewrite take_app, IH.
  change (take rows (i :: l)) with (take rows [i] ++ take rows l)%list.
  rewrite rev_app_distr. f_equal.
  unfold take; simpl. now destruct (nth_error rows i).
Qed.

Lemma take_seq_from {A} (pre rows : list A) :
  take (pre ++ rows) (seq (List.length pre) (List.length rows)) = rows.
Proof.
  revert pre; induction rows as [|r rows IH]; intros pre; [reflexivity|].
  simpl. rewrite nth_error_app2, Nat.sub_diag by lia. simpl.
  f_equal.
  specialize (IH (pre ++ [r])).
  rewrite <- app_assoc, length_app in IH. simpl in IH.
  now rewrite Nat.add_1_r in IH.
Qed.

Lemma take_seq {A} (rows : list A) :
  take rows (seq 0 (List.length rows)) = rows.
Proof. exact (take_seq_from [] rows). Qed.

Lemma take_perm {A} (rows : list A) (indexer : list nat) :
  Permutation indexer (seq 0 (List.length rows)) ->
  Permutation (take rows indexer) rows.
Proof.
  intros H. rewrite <- (take_seq rows) at 2.
  unfold take. now apply Permutation_flat_map.
Qed.

Lemma take_nth {A} (rows : list A) (indexer : list nat) (d : A) :
  Forall (fun i => (i < List.length rows)%nat) indexer ->
  take rows indexer = map (fun i => nth i rows d) indexer.
Proof.
  induction 1 as [|i l Hi _ IH]; [reflexivity|].
  simpl. rewrite IH.
  destruct (nth_error rows i) eqn:E.
  - simpl. f_equal. symmetry. now apply nth_error_nth.
  - apply nth_error_None in E. lia.
Qed.

Lemma nth_error_take {A} (rows : list A) (j : list nat) (x : nat) :
  Forall (fun i => (i < List.length rows)%nat) j ->
  nth_error (take rows j) x =
  match nth_error j x with
  | Some i => nth_error rows i
  | None => None
  end.
Proof.
  intros Hj; revert x.
  induction Hj as [|i j Hi _ IH]; intros x.
  - now destruct x.
  - simpl. destruct (nth_error rows i) eqn:E.
    + destruct x; simpl; [now rewrite E|apply IH].
    + apply nth_error_None in E. lia.
Qed.

Lemma take_take {A} (rows : list A) (j a : list nat) :
  Forall (fun i => (i < List.length rows)%nat) j ->
  take rows (take j a) = take (take rows j) a.
Proof.
  intros Hj.
  induction a as [|x a IH]; [reflexivity|].
  change (x :: a) with ([x] ++ a). rewrite !take_app, IH. f_equal.
  unfold take at 2 3. simpl. rewrite !app_nil_r.
  rewrite nth_error_take by exact Hj.
  destruct (nth_error j x) as [i|]; [|reflexivity].
  unfold take. simpl. now rewrite app_nil_r.
Qed.

Lemma take_map {A B} (f : A -> B) (rows : list A) (indexer : list nat) :
  take (map f rows) indexer = map f (take rows indexer).
Proof.
  induction indexer as [|i l IH]; [reflexivity|].
  simpl. rewrite map_app, <- IH, nth_error_map.
  now destruct (nth_error rows i).
Qed.

Lemma perm_seq_bound (l : list nat) (n : nat) :
  Permutation l (seq 0 n) -> Forall (fun i => (i < n)%nat) l.
Proof.
  intros H. apply Forall_forall. intros i Hi.
  apply (Permutation_in _ H) in Hi. apply in_seq in Hi. lia.
Qed.

(** ** [sort_values] *)

Lemma StronglySorted_app_inv {A} (R : A -> A -> Prop) (l1 l2 : list A) :
  StronglySorted R (l1 ++ l2) ->
  StronglySorted R l1 /\ StronglySorted R l2 /\
  (forall x y, In x l1 -> In y l2 -> R x y).
Proof.
  induction l1 as [|a l1 IH]; simpl; intros H.
  - repeat split; [constructor|exact H|intros ? ? []].
  - inversion H as [|? ? Hs Ha]; subst.
    destruct (IH Hs) as (H1 & H2 & H3).
    rewrite Forall_app in Ha. destruct Ha as [Ha1 Ha2].
    repeat split; [now constructor|exact H2|].
    intros x y [<-|Hx] Hy; [|now apply H3].
    rewrite Forall_forall in Ha2. now apply Ha2.
Qed.

Lemma StronglySorted_app {A} (R : A -> A -> Prop) (l1 l2 : list A) :
  StronglySorted R l1 -> StronglySorted R l2 ->
  (forall x y, In x l1 -> In y l2 -> R x y) ->
  StronglySorted R (l1 ++ l2).
Proof.
  induction 1 as [|a l1 Hs IH Ha]; simpl; intros H2 H; [exact H2|].
  constructor.
  - apply IH; [exact H2|]. intros x y Hx Hy. apply H; [now right|exact Hy].
  - apply Forall_app. split; [exact Ha|].
    apply Forall_forall. intros y Hy. apply H; [now left|exact Hy].
Qed.

Lemma StronglySorted_rev {A} (R : A -> A -> Prop) (l : list A) :
  StronglySorted R l -> StronglySorted (fun x y => R y x) (rev l).
Proof.
  induction 1 as [|a l Hs IH Ha]; simpl; [constructor|].
  apply StronglySorted_app; [exact IH|repeat constructor|].
  intros x y Hx [<-|[]]. rewrite Forall_forall in Ha.
  apply Ha. now apply in_rev.
Qed.

Lemma StronglySorted_map_inv {A B} (f : A -> B) (R : B -> B -> Prop)
    (l : list A) :
  StronglySorted R (map f l) -> StronglySorted (fun x y => R (f x) (f y)) l.
Proof.
  induction l as [|a l IH]; simpl; intros H; [constructor|].
  inversion H as [|? ? Hs Ha]; subst.
  constructor; [now apply IH|].
  now rewrite Forall_map in Ha.
Qed.

Section SortValues.

Variable P : pandas.

Lemma argsort_bound (ks : list Q) :
  Forall (fun i => (i < List.length ks)%nat) (argsort P ks).
Proof. apply perm_seq_bound, argsort_perm. Qed.

Lemma nargsort_perm (items : list Q) (ascending : bool) :
  Permutation (nargsort P items ascending) (seq 0 (List.length items)).
Proof.
  unfold nargsort. destruct ascending.
  - apply take_perm. rewrite length_seq. apply argsort_perm.
  - rewrite <- Permutation_rev.
    rewrite take_perm; [symmetry; apply Permutation_rev|].
    rewrite length_rev, length_seq.
    rewrite <- (length_rev items). apply argsort_perm.
Qed.

(** The rows of the sorted frame are the rows of the frame. *)
Lemma sort_values_perm {A} (key : A -> Q) (ascending : bool)
    (frame : list A) :
  Permutation (sort_values P key ascending frame) frame.
Proof.
  unfold sort_values. apply take_perm.
  rewrite <- (length_map key frame). apply nargsort_perm.
Qed.

(** The keys of the frame sorted with [ascending=False], read through
    numpy's contract. *)
Lemma sort_values_keys {A} (key : A -> Q) (frame : list A) :
  map key (sort_values P key false frame) =
  rev (map (fun i => nth i (rev (map key frame)) 0)
           (argsort P (rev (map key frame)))).
Proof.
  unfold sort_values, nargsort.
  set (items := map key frame).
  rewrite <- take_map. fold items.
  rewrite take_rev. f_equal.
  rewrite take_take.
  - rewrite take_rev, take_seq.
    apply take_nth. apply argsort_bound.
  - apply Forall_forall. intros i Hi.
    apply in_rev, in_seq in Hi. lia.
Qed.

(** [sort_values(by, ascending=False)] puts the keys in descending
    order. *)
Lemma sort_values_descending {A} (key : A -> Q) (frame : list A) :
  StronglySorted (descending key) (sort_values P key false frame).
Proof.
  apply (StronglySorted_map_inv key (fun a b => b <= a)).
  rewrite sort_values_keys.
  apply (StronglySorted_rev Qle).
  apply Sorted_StronglySorted; [|apply argsort_sorted].
  intros x y z. apply Qle_trans.
Qed.

Lemma sort_values_length {A} (key : A -> Q) (ascending : bool)
    (frame : list A) :
  List.length (sort_values P key ascending frame) = List.length frame.
Proof. apply Permutation_length, sort_values_perm. Qed.

End SortValues.

(** ** A sort that keeps equal keys in their order *)








(** ** What the methods return and leave behind *)

Lemma filter_filter {A} (p q : A -> bool) (l : list A) :
  filter q (filter p l) = filter (fun x => p x && q x) l.
Proof.
  induction l as [|x l IH]; [reflexivity|].
  simpl. destruct (p x); simpl; [destruct (q x)|]; now rewrite IH.
Qed.

Lemma get_sum_run (df : DataFrame) (w : World) :
  get_sum df w = (Ok (total df), w).
Proof. reflexivity. Qed.

Lemma get_sum_by_date_run (P : pandas) (df : DataFrame) (w : World) :
  get_sum_by_date P df "2023-10-01" w = (Ok (total (since threshold df)), w).
Proof.
  unfold get_sum_by_date. now rewrite Timestamp_2023_10_01.
Qed.

Lemma get_filtered_df_run (P : pandas) (col : string)
    (filter_val : option string) (my_own_exp : bool) (w : World) :
  get_filtered_df P (Some col) filter_val my_own_exp w =
  (if existsb (String.eqb col) columns
   then Ok (filter (fun r => Bool.eqb (my_expense r) my_own_exp
                             && row_eq P col filter_val r)
                   (df_exp (self w)))
   else Raise (KeyError (Some col)), w).
Proof.
  unfold get_filtered_df, bind, get_df_exp.
  destruct (existsb (String.eqb col) columns); [|reflexivity].
  unfold ret. now rewrite filter_filter.
Qed.

Lemma get_filtered_df_paid (P : pandas) (method : string) (w : World) :
  get_filtered_df P (Some PAY_COL) (Some method) true w =
  (Ok (own_paid_by method (df_exp (self w))), w).
Proof.
  rewrite get_filtered_df_run. simpl. unfold own_paid_by.
  replace (filter (fun r => Bool.eqb (my_expense r) true
                            && row_eq P PAY_COL (Some method) r)
                  (df_exp (self w)))
    with (filter (fun r => my_expense r && (payment_method r =? method))
                 (df_exp (self w))); [reflexivity|].
  apply filter_ext. intros r.
  now destruct (my_expense r).
Qed.

Lemma summary_run (P : pandas) (w : World) :
  summary P w =
  (Ok tt, {| self := self w;
             stdout := stdout w ++ summary_output P (df_exp (self w)) |}).
Proof.
  unfold summary.
  unfold bind at 1. rewrite get_filtered_df_paid.
  unfold bind at 1. rewrite get_sum_run.
  unfold bind at 1. rewrite get_filtered_df_paid.
  unfold bind at 1. rewrite get_sum_by_date_run.
  unfold bind, show_bars, print. simpl.
  rewrite <- !app_assoc. reflexivity.
Qed.

(** ** Text replacement *)

Lemma prefix_cons (a c : ascii) (p s : string) :
  prefix (String a p) (String c s) = (Ascii.eqb c a && prefix p s)%bool.
Proof.
  simpl. destruct (ascii_dec a c) as [->|N].
  - now rewrite Ascii.eqb_refl.
  - assert (E : Ascii.eqb c a = false) by (apply Ascii.eqb_neq; congruence).
    now rewrite E.
Qed.

Lemma prefix_empty (s : string) : prefix "" s = true.
Proof. now destruct s. Qed.

Lemma replace_from_cons (old new : string) (c : ascii) (s : string) :
  Str.replace_from 0 old new (String c s) =
  if prefix old (String c s)
  then (new ++ Str.replace_from (String.length old - 1) old new s)%string
  else String c (Str.replace_from 0 old new s).
Proof. reflexivity. Qed.

Lemma replace_char (old new : ascii) (s : string) :
  Str.replace (String old EmptyString) (String new EmptyString) s =
  map_char (swap_char old new) s.
Proof.
  unfold Str.replace.
  induction s as [|c s IH]; [reflexivity|].
  rewrite replace_from_cons, prefix_cons, prefix_empty, andb_true_r.
  cbn [map_char]. unfold swap_char at 1.
  destruct (Ascii.eqb c old); cbn [String.length Nat.sub String.append];
    now rewrite IH.
Qed.

Lemma replace_no_cons (c : ascii) (s : string) :
  Str.replace_from 0 "no" "" (String c s) =
  match s with
  | EmptyString => String c EmptyString
  | String c' s' =>
      if (Ascii.eqb c "n" && Ascii.eqb c' "o")%bool
      then Str.replace_from 0 "no" "" s'
      else String c (Str.replace_from 0 "no" "" s)
  end.
Proof.
  rewrite replace_from_cons, prefix_cons.
  destruct s as [|c' s'].
  - cbn [prefix]. now rewrite andb_false_r.
  - rewrite prefix_cons, prefix_empty, andb_true_r.
    destruct (Ascii.eqb c "n" && Ascii.eqb c' "o")%bool; reflexivity.
Qed.

Lemma replace_no_delete (s : string) :
  Str.replace "no" "" s = delete_no s.
Proof.
  unfold Str.replace.
  assert (H : forall n s, (String.length s <= n)%nat ->
                          Str.replace_from 0 "no" "" s = delete_no s).
  { clear s. induction n as [|n IH]; intros [|c s] Hn; simpl in Hn;
      try reflexivity; try lia.
    rewrite replace_no_cons. cbn [delete_no].
    destruct s as [|c' s]; [reflexivity|].
    rewrite (IH s) by (simpl in Hn; lia).
    rewrite (IH (String c' s)) by (simpl in *; lia).
    reflexivity. }
  apply (H (String.length s)). lia.
Qed.

Lemma delete_no_times (k : nat) : delete_no (Str.times "no" k) = "".
Proof. induction k as [|k IH]; [reflexivity|exact IH]. Qed.

Lemma delete_no_empty (s : string) :
  delete_no s = "" -> exists k, s = Str.times "no" k.
Proof.
  assert (H : forall n s, (String.length s <= n)%nat ->
                          delete_no s = "" -> exists k, s = Str.times "no" k).
  { clear s. induction n as [|n IH]; intros [|c s] Hn Hs; simpl in Hn;
      try (now exists 0%nat); try lia.
    destruct s as [|c' s]; [discriminate|].
    cbn [delete_no] in Hs.
    destruct (Ascii.eqb_spec c "n") as [->|Nc];
      [destruct (Ascii.eqb_spec c' "o") as [->|No]|];
      cbn [andb] in Hs; try discriminate.
    destruct (IH s) as [k Hk]; [simpl in Hn; lia|exact Hs|].
    exists (S k). simpl. now rewrite Hk. }
  apply (H (String.length s)). lia.
Qed.

Lemma swap_swap (c : ascii) :
  swap_char "," "." (swap_char "." "," c) = swap_char "," "." c.
Proof.
  unfold swap_char.
  destruct (Ascii.eqb_spec c ".") as [->|N]; [reflexivity|].
  destruct (Ascii.eqb_spec c ",") as [->|N']; reflexivity.
Qed.

Lemma map_char_map_char (f g : ascii -> ascii) (s : string) :
  map_char f (map_char g s) = map_char (fun c => f (g c)) s.
Proof. induction s as [|c s IH]; simpl; [reflexivity|now rewrite IH]. Qed.

Lemma map_char_ext (f g : ascii -> ascii) (s : string) :
  (forall c, f c = g c) -> map_char f s = map_char g s.
Proof.
  intros H. induction s as [|c s IH]; simpl; [reflexivity|].
  now rewrite H, IH.
Qed.

(** A cell written with commas and the same cell written with periods
    are the same text once the commas are replaced. *)
Lemma replace_comma_of_period (s : string) :
  Str.replace "," "." (Str.replace "." "," s) = Str.replace "," "." s.
Proof.
  rewrite !replace_char, map_char_map_char.
  apply map_char_ext, swap_swap.
Qed.

(** A decimal literal has no comma. *)
Lemma digits_no_comma (s : string) :
  forall acc n r, digits acc n s = Some r ->
                  map_char (swap_char "," ".") s = s.
Proof.
  induction s as [|c s IH]; intros acc n r H; [reflexivity|].
  simpl in H. cbn [map_char].
  destruct (Ascii.eqb_spec c ",") as [->|N]; [discriminate|].
  destruct (digit_of c); [|discriminate].
  unfold swap_char at 1. apply Ascii.eqb_neq in N. rewrite N.
  f_equal. eapply IH; eassumption.
Qed.

Lemma int_part_no_comma (s : string) :
  forall acc n i ni rest,
    int_part acc n s = Some (i, ni, rest) ->
    (forall frac, rest = Some frac ->
                  map_char (swap_char "," ".") frac = frac) ->
    map_char (swap_char "," ".") s = s.
Proof.
  induction s as [|c s IH]; intros acc n i ni rest H Hf; [reflexivity|].
  simpl in H. cbn [map_char].
  destruct (Ascii.eqb_spec c ".") as [->|Np].
  - injection H as _ _ <-. unfold swap_char at 1. simpl Ascii.eqb.
    f_equal. now apply Hf.
  - destruct (Ascii.eqb_spec c ",") as [->|N]; [discriminate|].
    destruct (digit_of c); [|discriminate].
    unfold swap_char at 1. apply Ascii.eqb_neq in N. rewrite N.
    f_equal. eapply IH; eassumption.
Qed.

Lemma unsigned_decimal_no_comma (s : string) (q : Q) :
  unsigned_decimal s = Some q -> map_char (swap_char "," ".") s = s.
Proof.
  unfold unsigned_decimal.
  destruct (int_part 0 0 s) as [[[i ni] rest]|] eqn:E; [|discriminate].
  intros H. eapply int_part_no_comma; [exact E|].
  intros frac ->.
  destruct (digits i 0 frac) as [[m nf]|] eqn:D; [|discriminate].
  eapply digits_no_comma; exact D.
Qed.

Lemma decimal_literal_no_comma (s : string) (q : Q) :
  decimal_literal s = Some q -> Str.replace "," "." s = s.
Proof.
  rewrite replace_char.
  destruct s as [|c s]; [discriminate|].
  unfold decimal_literal.
  destruct (Ascii.eqb_spec c "-") as [->|Nm].
  - destruct (unsigned_decimal s) as [q'|] eqn:E; [|discriminate].
    intros _. cbn [map_char]. unfold swap_char at 1. simpl Ascii.eqb.
    f_equal. eapply unsigned_decimal_no_comma; exact E.
  - destruct (Ascii.eqb_spec c "+") as [->|Np].
    + intros E. cbn [map_char]. unfold swap_char at 1. simpl Ascii.eqb.
      f_equal. eapply unsigned_decimal_no_comma; exact E.
    + apply unsigned_decimal_no_comma.
Qed.

(** ** Column coercion *)

Lemma convert_col_numeric (P : pandas) (cells : list string) :
  convert_col P cells NUM_FORMAT =
  rmap (fun s => match to_numeric P s with
                 | Some q => Ok (CNum q)
                 | None => Raise (ValueError s)
                 end)
       (map (Str.replace "," ".") cells).
Proof. reflexivity. Qed.

(** C2. The boolean coercion of [convert_col] is the literal substring
    rule: each cell has every occurrence of ["no"] deleted and is true
    exactly when text is left, so the false cells are the empty one and the
    repetitions of ["no"]; ["no"] and [""] give false, ["yes"] and
    ["nobody"] give true. *)
Theorem bool_coercion_substring_rule (P : pandas) (cells : list string) :
  convert_col P cells BOOL_FORMAT =
    Ok (map (fun s => CBool (Str.truth (Str.replace "no" "" s))) cells)
  /\ (forall s, Str.replace "no" "" s = delete_no s)
  /\ (forall s, Str.truth (Str.replace "no" "" s) = false
                <-> exists k, s = Str.times "no" k)
  /\ convert_col P ["no"; ""; "yes"; "nobody"] BOOL_FORMAT =
       Ok [CBool false; CBool false; CBool true; CBool true].
Proof.
  split; [|split; [|split]].
  - unfold convert_col. simpl. now rewrite map_map.
  - exact replace_no_delete.
  - intros s. rewrite replace_no_delete. split.
    + intros H. apply delete_no_empty.
      now destruct (delete_no s).
    + intros [k ->]. now rewrite delete_no_times.
  - reflexivity.
Qed.

(** C3. The numeric coercion of [convert_col] replaces the commas by
    periods before it parses, so a cell written with commas and the same
    cell written with periods are coerced alike, to the same number or the
    same error; a decimal literal and its spelling with a comma both give
    the literal's value; ["1,50"] and ["1.50"] both give 1.50. *)
Theorem numeric_coercion_separator (P : pandas) (cells : list string) :
  convert_col P (map (Str.replace "." ",") cells) NUM_FORMAT =
    convert_col P cells NUM_FORMAT
  /\ (forall s, match decimal_literal s with
                | Some q =>
                    convert_col P [s] NUM_FORMAT = Ok [CNum q]
                    /\ convert_col P [Str.replace "." "," s] NUM_FORMAT =
                         Ok [CNum q]
                | None => True
                end)
  /\ convert_col P ["1,50"] NUM_FORMAT = Ok [CNum (3 # 2)]
  /\ convert_col P ["1.50"] NUM_FORMAT = Ok [CNum (3 # 2)]
  /\ (3 # 2 == 150 # 100)%Q.
Proof.
  assert (V : forall s q, decimal_literal s = Some q ->
                          convert_col P [s] NUM_FORMAT = Ok [CNum q]).
  { intros s q H. rewrite convert_col_numeric. cbn [map rmap].
    rewrite (decimal_literal_no_comma s q H).
    now rewrite (to_numeric_decimal P s q H). }
  assert (S : forall l, convert_col P (map (Str.replace "." ",") l) NUM_FORMAT
                        = convert_col P l NUM_FORMAT).
  { intros l. rewrite !convert_col_numeric, map_map. f_equal.
    apply map_ext. intros s. apply replace_comma_of_period. }
  split; [apply S|split; [|split; [|split]]].
  - intros s. destruct (decimal_literal s) as [q|] eqn:E; [|exact I].
    split; [now apply V|].
    change [Str.replace "." "," s] with (map (Str.replace "." ",") [s]).
    rewrite (S [s]). now apply V.
  - change ["1,50"] with (map (Str.replace "." ",") ["1.50"]).
    rewrite (S ["1.50"]). now apply V.
  - now apply V.
  - reflexivity.
Qed.

(** ** Sums and rounding *)









(** ** The queries read the object and leave it as it is *)

Lemma readonly_ret {A} (a : A) : readonly (ret a).
Proof. intros w. reflexivity. Qed.

Lemma readonly_raise {A} (e : exn) : readonly (@raise A e).
Proof. intros w. reflexivity. Qed.

Lemma readonly_get_df_exp : readonly get_df_exp.
Proof. intros w. reflexivity. Qed.

Lemma readonly_print (p : printed) : readonly (print p).
Proof. intros w. reflexivity. Qed.

Lemma readonly_bind {A B} (m : M A) (k : A -> M B) :
  readonly m -> (forall a, readonly (k a)) -> readonly (bind m k).
Proof.
  intros Hm Hk w. unfold bind.
  specialize (Hm w). destruct (m w) as [[a|e] w']; simpl in *.
  - now rewrite Hk.
  - exact Hm.
Qed.

Create HintDb readonly.

#[local] Hint Resolve readonly_ret readonly_raise readonly_get_df_exp
  readonly_print : readonly.

Lemma readonly_get_sum (df : DataFrame) : readonly (get_sum df).
Proof. unfold get_sum. auto with readonly. Qed.

Lemma readonly_get_sum_by_date (P : pandas) (df : DataFrame) (d : string) :
  readonly (get_sum_by_date P df d).
Proof.
  unfold get_sum_by_date.
  destruct (Timestamp P d); [apply readonly_get_sum|auto with readonly].
Qed.

Lemma readonly_get_filtered_df (P : pandas) (col val : option string)
    (own : bool) :
  readonly (get_filtered_df P col val own).
Proof.
  unfold get_filtered_df.
  apply readonly_bind; [auto with readonly|]. intros df.
  destruct col as [c|]; [|auto with readonly].
  destruct (existsb (String.eqb c) columns); auto with readonly.
Qed.

Lemma readonly_show_bars : readonly show_bars.
Proof. apply readonly_print. Qed.

Lemma readonly_summary (P : pandas) : readonly (summary P).
Proof.
  unfold summary.
  repeat first
    [ apply readonly_bind; [|intros ?]
    | apply readonly_get_filtered_df
    | apply readonly_get_sum
    | apply readonly_get_sum_by_date
    | apply readonly_show_bars
    | apply readonly_print ].
Qed.

(** C9. No query changes the stored table: after [get_sum],
    [get_sum_by_date], [get_filtered_df] and [summary], whether they
    return or raise, [self.df_exp] (and [self.csv_file]) is what it was
    before the call. *)
Theorem queries_leave_table (P : pandas) (w : World) (df : DataFrame)
    (filter_date : string) (filter_col filter_val : option string)
    (my_own_exp : bool) :
  df_exp (self (snd (get_sum df w))) = df_exp (self w)
  /\ df_exp (self (snd (get_sum_by_date P df filter_date w))) = df_exp (self w)
  /\ df_exp (self (snd (get_filtered_df P filter_col filter_val my_own_exp w)))
     = df_exp (self w)
  /\ df_exp (self (snd (summary P w))) = df_exp (self w)
  /\ self (snd (get_sum df w)) = self w
  /\ self (snd (get_sum_by_date P df filter_date w)) = self w
  /\ self (snd (get_filtered_df P filter_col filter_val my_own_exp w)) = self w
  /\ self (snd (summary P w)) = self w.
Proof.
  rewrite (readonly_get_sum df w),
    (readonly_get_sum_by_date P df filter_date w),
    (readonly_get_filtered_df P filter_col filter_val my_own_exp w),
    (readonly_summary P w).
  repeat split.
Qed.

(** ** Filtering *)


Lemma filter_nil {A} (p : A -> bool) (l : list A) :
  (forall x, In x l -> p x = false) -> filter p l = [].
Proof.
  induction l as [|x l IH]; intros H; [reflexivity|].
  simpl. rewrite (H x) by now left.
  apply IH. intros y Hy. apply H. now right.
Qed.


(** ** The summary *)

Lemma date_geb_spec (d t : Date) : date_geb d t = true <-> on_or_after t d.
Proof.
  unfold date_geb, date_compare, on_or_after.
  destruct (Z.compare_spec (year d) (year t));
    [destruct (Z.compare_spec (month d) (month t));
     [destruct (Z.compare_spec (day d) (day t))|..]|..];
    split; intros; try discriminate; try reflexivity; lia.
Qed.


(** ** Top-N selection *)

Lemma firstn_sort_values_top (P : pandas) {A} (n : nat) (key : A -> Q)
    (frame : list A) :
  top_selection n key (firstn n (sort_values P key false frame)) frame.
Proof.
  pose proof (sort_values_descending P key frame) as S.
  pose proof (sort_values_perm P key false frame) as Pm.
  rewrite <- (firstn_skipn n (sort_values P key false frame)) in S, Pm.
  apply StronglySorted_app_inv in S. destruct S as (S1 & _ & S3).
  split; [exact S1|split].
  - now rewrite length_firstn, sort_values_length.
  - exists (skipn n (sort_values P key false frame)).
    split; [exact Pm|]. intros x y Hx Hy. now apply S3.
Qed.

Lemma firstn_sort_values_all (P : pandas) {A} (n : nat) (key : A -> Q)
    (frame : list A) :
  (List.length frame <= n)%nat ->
  Permutation (firstn n (sort_values P key false frame)) frame.
Proof.
  intros H. rewrite firstn_all2; [apply sort_values_perm|].
  now rewrite sort_values_length.
Qed.

Lemma top_items_top (P : pandas) (df : DataFrame) :
  top_selection 3 item_value (top_items P df) (map item_row df).
Proof. apply firstn_sort_values_top. Qed.

Lemma top_groups_top (P : pandas) (df : DataFrame) :
  top_selection 3 snd (top_groups P df) (groupby_sum (map group_row df)).
Proof. apply firstn_sort_values_top. Qed.



(** ** Grouping *)




Lemma insert_key_In (k x : string) (keys : list string) :
  In x (insert_key k keys) <-> x = k \/ In x keys.
Proof.
  induction keys as [|y keys IH]; simpl; [intuition|].
  destruct (String.compare k y) eqn:E; simpl.
  - apply String.compare_eq_iff in E. subst. intuition.
  - intuition.
  - rewrite IH. intuition.
Qed.


Lemma group_keys_In (x : string) (labels : list string) :
  In x (group_keys labels) <-> In x labels.
Proof.
  induction labels as [|k labels IH]; simpl; [tauto|].
  rewrite insert_key_In, IH. intuition.
Qed.




Lemma groupby_sum_In (frame : list (string * Q)) (k : string) (s : Q) :
  In (k, s) (groupby_sum frame) <->
  In k (map fst frame) /\ s = group_total frame k.
Proof.
  unfold groupby_sum. rewrite in_map_iff. split.
  - intros (k' & E & Hk). injection E as -> <-.
    split; [now apply group_keys_In|reflexivity].
  - intros [Hk ->]. exists k. split; [reflexivity|now apply group_keys_In].
Qed.

Lemma printed_after_items (P : pandas) (df : DataFrame) :
  printed_after (nl ++ "Most expensive items paid in credit: ")
                (summary_output P df)
  = Some (PItems (top_items P (own_paid_by "credit" df))).
Proof. reflexivity. Qed.

Lemma printed_after_groups (P : pandas) (df : DataFrame) :
  printed_after (nl ++ "Most expensive categories paid in credit: ")
                (summary_output P df)
  = Some (PGroups (top_groups P (own_paid_by "credit" df))).
Proof. reflexivity. Qed.

Lemma top_items_all (P : pandas) (df : DataFrame) (r : ExpenseRecord) :
  (List.length df <= 3)%nat -> In r df -> In (item_row r) (top_items P df).
Proof.
  intros Hlen Hr. unfold top_items.
  eapply Permutation_in.
  - symmetry. apply firstn_sort_values_all. now rewrite length_map.
  - now apply in_map.
Qed.

Lemma top_groups_all (P : pandas) (df : DataFrame) (r : ExpenseRecord) :
  (List.length (groupby_sum (map group_row df)) <= 3)%nat ->
  In r df ->
  In (category r, group_total (map group_row df) (category r))
     (top_groups P df).
Proof.
  intros Hlen Hr. unfold top_groups.
  eapply Permutation_in.
  - symmetry. now apply firstn_sort_values_all.
  - apply groupby_sum_In. split; [|reflexivity].
    rewrite map_map. apply (in_map category) in Hr. exact Hr.
Qed.

(** C1, as the code has it. In the credit section of [summary] only the
    total is bounded by date: the item listing and the category
    aggregation are top-3 selections over all the user's own credit rows,
    whatever their date.  When the user has at most three credit rows, all
    of them are listed, and when they fall in at most three categories,
    all of these are, each with the sum over all its rows. *)
Theorem summary_credit_section (P : pandas) (w : World) :
  let df := df_exp (self w) in
  let credit := own_paid_by "credit" df in
  exists credit_items credit_groups,
    stdout (snd (summary P w)) =
       stdout w ++
       [ bars;
         PTotal "Sum of all debit expenses:  $"
                (total (own_paid_by "debit" df));
         PText (nl ++ "Most expensive items paid in debit: ");
         PItems (top_items P (own_paid_by "debit" df));
         PText (nl ++ "Most expensive categories paid in debit: ");
         PGroups (top_groups P (own_paid_by "debit" df));
         bars;
         bars;
         PTotal "Sum of all credit expenses: $"
                (total (since (mkDate 2023 10 1) credit));
         PText (nl ++ "Most expensive items paid in credit: ");
         PItems credit_items;
         PText (nl ++ "Most expensive categories paid in credit: ");
         PGroups credit_groups;
         bars ]
    /\ credit_items =
       firstn 3 (sort_values P item_value false (map item_row credit))
    /\ credit_groups =
       firstn 3 (sort_values P snd false
                             (groupby_sum (map group_row credit)))
    /\ top_selection 3 item_value credit_items (map item_row credit)
    /\ top_selection 3 snd credit_groups
                     (groupby_sum (map group_row credit))
    /\ (forall r, In r credit <->
                  In r df /\ my_expense r = true
                  /\ payment_method r = "credit")
    /\ ((List.length credit <= 3)%nat ->
        forall r, In r credit -> In (item_row r) credit_items)
    /\ ((List.length (groupby_sum (map group_row credit)) <= 3)%nat ->
        forall r, In r credit ->
                  In (category r,
                      group_total (map group_row credit) (category r))
                     credit_groups).
Proof.
  intros df credit.
  exists (top_items P credit), (top_groups P credit).
  split; [now rewrite summary_run|].
  split; [reflexivity|split; [reflexivity|]].
  split; [apply top_items_top|split; [apply top_groups_top|]].
  split; [|split].
  - intros r. unfold credit, own_paid_by.
    rewrite filter_In, andb_true_iff, String.eqb_eq. tauto.
  - intros H r. now apply top_items_all.
  - intros H r. now apply top_groups_all.
Qed.

(** C1, as the specification states it, fails on [sample_table], whose credit row
    of 2023-09-01 is both among the listed items and the only row of a
    listed category, whatever the sort kind: the credit listings are not
    those of the rows dated 2023-10-01 or later, and a listed row is dated
    before that day. *)
Lemma credit_listing_not_date_bounded :
  ~ exists P : pandas,
      let out := stdout (snd (summary P sample_world)) in
      let bounded :=
        since (mkDate 2023 10 1) (own_paid_by "credit" sample_table) in
      printed_after (nl ++ "Most expensive items paid in credit: ") out
        = Some (PItems (top_items P bounded))
      \/ printed_after (nl ++ "Most expensive categories paid in credit: ") out
        = Some (PGroups (top_groups P bounded))
      \/ (forall items,
             printed_after (nl ++ "Most expensive items paid in credit: ") out
               = Some (PItems items) ->
             forall row, In row items ->
                         on_or_after (mkDate 2023 10 1) (fst (fst (fst row))))
      \/ (forall groups,
             printed_after (nl ++ "Most expensive categories paid in credit: ")
                           out
               = Some (PGroups groups) ->
             forall g, In g groups ->
                       exists r, In r bounded /\ category r = fst g).
Proof.
  intros [P H]. cbv zeta in H.
  rewrite summary_run in H.
  change (stdout _) with (summary_output P sample_table) in H.
  rewrite printed_after_items, printed_after_groups in H.
  set (tv := expense (mkDate 2023 9 1) "tv" 900 "home" "credit" true) in *.
  assert (Htv : In tv (own_paid_by "credit" sample_table)) by (now left).
  destruct H as [H|[H|[H|H]]].
  - injection H as H. apply (f_equal (@List.length _)) in H.
    destruct (top_items_top P (own_paid_by "credit" sample_table)) as (_ & L1 & _).
    destruct (top_items_top P (since (mkDate 2023 10 1)
                                     (own_paid_by "credit" sample_table)))
      as (_ & L2 & _).
    assert (C : 3%nat = 2%nat) by (rewrite <- L1, <- L2 at 1; exact H).
    discriminate C.
  - injection H as H. apply (f_equal (@List.length _)) in H.
    destruct (top_groups_top P (own_paid_by "credit" sample_table)) as (_ & L1 & _).
    destruct (top_groups_top P (since (mkDate 2023 10 1)
                                      (own_paid_by "credit" sample_table)))
      as (_ & L2 & _).
    assert (C : 2%nat = 1%nat) by (rewrite <- L1, <- L2 at 1; exact H).
    discriminate C.
  - assert (L : (List.length (own_paid_by "credit" sample_table) <= 3)%nat)
      by (vm_compute; lia).
    specialize (H _ eq_refl (item_row tv) (top_items_all P _ tv L Htv)).
    unfold on_or_after in H. simpl in H. lia.
  - assert (L : (List.length
                   (groupby_sum
                      (map group_row (own_paid_by "credit" sample_table)))
                 <= 3)%nat)
      by (vm_compute; lia).
    destruct (H _ eq_refl _ (top_groups_all P _ tv L Htv))
      as (r & Hr & Hc).
    simpl in Hr. destruct Hr as [<-|[<-|[]]]; discriminate Hc.
Qed.

(** ** Grouped aggregation *)





(** ** Loading the module *)

(** C10. Executing [expense_manager.py] raises [NameError] for the name
    [pandas]: the import binds [pd] only, and the class body, reaching
    [def get_sum], evaluates the annotation [pandas.DataFrame].  The class
    statement does not complete, so the module binds no [ExpenseManager];
    with [pd.DataFrame] in that annotation the same module loads. *)
Theorem module_raises_NameError :
  Python.import_module Python.expense_manager = Raise (NameError "pandas")
  /\ Python.exec_body ["pd"; "show_bars"] []
       (Python.class_body (Python.Attribute (Python.Name "pandas") "DataFrame"))
     = Raise (NameError "pandas")
  /\ Python.bound "pandas" (["pd"; "show_bars"] ++ Python.builtins) = false
  /\ (forall names,
         Python.import_module Python.expense_manager = Ok names ->
         In "ExpenseManager" names -> False)
  /\ Python.import_module
       (Python.module_with (Python.Attribute (Python.Name "pd") "DataFrame"))
     = Ok ["pd"; "show_bars"; "ExpenseManager"].
Proof.
  repeat split. intros names H. discriminate H.
Qed.

(** ** The frame while it is loaded *)

Lemma getcol_setcol_same (col : string) (cells : list cell) (df : Frame) :
  Loading.getcol col (Loading.setcol col cells df) = Some cells.
Proof.
  induction df as [|[c old] df IH]; simpl.
  - now rewrite String.eqb_refl.
  - destruct (c =? col) eqn:E; simpl; now rewrite E.
Qed.

Lemma getcol_setcol_other (col c : string) (cells : list cell) (df : Frame) :
  c <> col ->
  Loading.getcol c (Loading.setcol col cells df) = Loading.getcol c df.
Proof.
  intros N. induction df as [|[c' old] df IH]; simpl.
  - assert (E : (col =? c) = false) by (apply String.eqb_neq; congruence).
    now rewrite E.
  - destruct (c' =? col) eqn:E; simpl.
    + apply String.eqb_eq in E. subst c'.
      assert (E : (col =? c) = false) by (apply String.eqb_neq; congruence).
      now rewrite E.
    + now rewrite IH.
Qed.

Lemma setcol_names (col : string) (cells : list cell) (df : Frame) :
  Loading.getcol col df <> None ->
  map fst (Loading.setcol col cells df) = map fst df.
Proof.
  induction df as [|[c old] df IH]; simpl; intros H; [congruence|].
  destruct (c =? col); simpl; [reflexivity|].
  f_equal. now apply IH.
Qed.

Lemma as_text_CStr (texts : list string) :
  Loading.as_text (map CStr texts) = Some texts.
Proof.
  induction texts as [|s l IH]; simpl; [reflexivity|now rewrite IH].
Qed.


Lemma reads_as_text_frame (t : TextColumns) : reads_as (text_frame t) t.
Proof. repeat split. Qed.

Ltac getcols :=
  repeat first
    [ rewrite getcol_setcol_same
    | rewrite getcol_setcol_other by (intros ?; discriminate) ].

(** ** The conversion of a column, cell by cell *)

Lemma convert_col_str (P : pandas) (texts : list string) :
  ExpenseManager.convert_col P texts STR_FORMAT = Ok (map CStr texts).
Proof. reflexivity. Qed.

Lemma convert_col_bool (P : pandas) (texts : list string) :
  ExpenseManager.convert_col P texts BOOL_FORMAT = Ok (bool_cells texts).
Proof. unfold ExpenseManager.convert_col, bool_cells. simpl. now rewrite map_map. Qed.


Lemma rmap_ok_iff {A B} (f : A -> result B) (l : list A) (l' : list B) :
  rmap f l = Ok l' <-> Forall2 (fun x y => f x = Ok y) l l'.
Proof.
  revert l'; induction l as [|x l IH]; intros l'; simpl.
  - split.
    + intros H. injection H as <-. constructor.
    + intros H. now inversion H.
  - split.
    + intros H. destruct (f x) as [y|e] eqn:E; [|discriminate]. simpl in H.
      destruct (rmap f l) as [ys|e]; [|discriminate]. simpl in H.
      injection H as <-. constructor; [exact E|now apply IH].
    + intros H. inversion H as [|? y ? ys Hx Hl]; subst.
      rewrite Hx. simpl. apply IH in Hl. now rewrite Hl.
Qed.

Lemma rmap_raise_iff {A B} (f : A -> result B) (l : list A) (e : exn) :
  rmap f l = Raise e <->
  exists pre x post,
    l = pre ++ x :: post
    /\ Forall (fun y => exists z, f y = Ok z) pre
    /\ f x = Raise e.
Proof.
  induction l as [|x l IH]; simpl.
  - split; [discriminate|].
    intros (pre & y & post & H & _). now destruct pre.
  - split.
    + intros H. destruct (f x) as [y|e'] eqn:E.
      * simpl in H. destruct (rmap f l) as [ys|e''] eqn:R; [discriminate|].
        simpl in H. injection H as ->.
        destruct (proj1 IH eq_refl) as (pre & z & post & -> & Hp & Hz).
        exists (x :: pre), z, post. repeat split; [|exact Hz].
        constructor; [now exists y|exact Hp].
      * simpl in H. injection H as ->.
        exists [], x, l. repeat split; [constructor|exact E].
    + intros (pre & y & post & H & Hp & Hy).
      destruct pre as [|p pre]; simpl in H; injection H as -> ->.
      * now rewrite Hy.
      * inversion Hp as [|? ? [z Hz] Hp']; subst. rewrite Hz. simpl.
        assert (R : rmap f (pre ++ y :: post) = Raise e).
        { apply IH. now exists pre, y, post. }
        now rewrite R.
Qed.

Lemma rmap_length {A B} (f : A -> result B) (l : list A) (l' : list B) :
  rmap f l = Ok l' -> List.length l' = List.length l.
Proof.
  revert l'; induction l as [|x l IH]; intros l' H; simpl in H.
  - now injection H as <-.
  - destruct (f x) as [y|e]; [|discriminate]. simpl in H.
    destruct (rmap f l) as [ys|e]; [|discriminate]. simpl in H.
    injection H as <-. simpl. f_equal. now apply IH.
Qed.

Lemma convert_col_length (P : pandas) (cells : list string)
    (data_type : string) (cells' : list cell) :
  ExpenseManager.convert_col P cells data_type = Ok cells' ->
  List.length cells' = List.length cells.
Proof.
  unfold ExpenseManager.convert_col.
  destruct (data_type =? NUM_FORMAT).
  { intros H. apply rmap_length in H. now rewrite length_map in H. }
  destruct (data_type =? DATE_FORMAT); [apply rmap_length|].
  destruct (data_type =? STR_FORMAT).
  { intros H. injection H as <-. apply length_map. }
  destruct (data_type =? BOOL_FORMAT); [|discriminate].
  intros H. injection H as <-. now rewrite !length_map.
Qed.

(** X1. When [convert_col] returns, the column has a cell for each cell
    it had, in the same order, each the conversion of the text that stood
    there: a number, a timestamp, the same text, or the boolean of the
    substring rule. *)
Theorem convert_col_cell_by_cell (P : pandas) (cells : list string)
    (data_type : string) (cells' : list cell) :
  ExpenseManager.convert_col P cells data_type = Ok cells' ->
  List.length cells' = List.length cells
  /\ Forall2 (converted P data_type) cells cells'.
Proof.
  intros H. split; [now apply convert_col_length in H|].
  revert H. unfold ExpenseManager.convert_col, converted.
  destruct (String.eqb_spec data_type NUM_FORMAT) as [->|N1].
  { intros H. apply rmap_ok_iff in H.
    revert cells' H. induction cells as [|s l IH]; intros cells' H;
      inversion H as [|? c ? l' Hc Hl]; subst; constructor.
    - left. split; [reflexivity|].
      change (Str.replace_from 0 "," "." s)
        with (Str.replace "," "." s) in Hc.
      destruct (to_numeric P (Str.replace "," "." s)) as [q|];
        [|discriminate].
      injection Hc as <-. now exists q.
    - now apply IH. }
  destruct (String.eqb_spec data_type DATE_FORMAT) as [->|N2].
  { intros H. apply rmap_ok_iff in H.
    revert cells' H. induction cells as [|s l IH]; intros cells' H;
      inversion H as [|? c ? l' Hc Hl]; subst; constructor.
    - right; left. split; [reflexivity|].
      destruct (to_datetime P s DATE_STR_FMT) as [d|]; [|discriminate].
      injection Hc as <-. now exists d.
    - now apply IH. }
  destruct (String.eqb_spec data_type STR_FORMAT) as [->|N3].
  { intros H. injection H as <-.
    induction cells; constructor; [|assumption].
    right; right; left. now split. }
  destruct (String.eqb_spec data_type BOOL_FORMAT) as [->|N4];
    [|discriminate].
  intros H. injection H as <-. rewrite map_map.
  induction cells; constructor; [|assumption].
  right; right; right. now split.
Qed.

Lemma convert_col_cell_by_cell_witness :
  Forall2 (converted stable_kind NUM_FORMAT) ["3,50"; "30"]
          [CNum (7 # 2); CNum 30].
Proof.
  destruct (convert_col_cell_by_cell stable_kind ["3,50"; "30"] NUM_FORMAT
              [CNum (7 # 2); CNum 30] eq_refl) as [_ H].
  exact H.
Defined.

(** X2. On a column of text [convert_col] raises in three cases only: on
    the first cell of a numeric column that, its commas replaced, is not
    read as a number; on the first cell of a date column that is not read
    as a date; and for a format that is none of the four.  The text and
    the boolean conversions never raise. *)
Theorem convert_col_raises (P : pandas) (cells : list string)
    (data_type : string) (e : exn) :
  ExpenseManager.convert_col P cells data_type = Raise e <->
  (data_type = NUM_FORMAT
   /\ exists pre s post,
       cells = pre ++ s :: post
       /\ Forall (fun t => to_numeric P (Str.replace "," "." t) <> None) pre
       /\ to_numeric P (Str.replace "," "." s) = None
       /\ e = ValueError (Str.replace "," "." s))
  \/ (data_type = DATE_FORMAT
      /\ exists pre s post,
          cells = pre ++ s :: post
          /\ Forall (fun t => to_datetime P t DATE_STR_FMT <> None) pre
          /\ to_datetime P s DATE_STR_FMT = None
          /\ e = ValueError s)
  \/ (data_type <> NUM_FORMAT /\ data_type <> DATE_FORMAT
      /\ data_type <> STR_FORMAT /\ data_type <> BOOL_FORMAT
      /\ e = PyException ("[!] Invalid format " ++ data_type ++ "!")).
Proof.
  unfold ExpenseManager.convert_col.
  destruct (String.eqb_spec data_type NUM_FORMAT) as [->|N1].
  { rewrite rmap_raise_iff. split.
    - intros (pre & x & post & H & Hp & Hx).
      apply map_eq_app in H. destruct H as (pre' & l & -> & <- & H).
      apply map_eq_cons in H. destruct H as (s & post' & -> & <- & <-).
      left. split; [reflexivity|]. exists pre', s, post'.
      split; [reflexivity|]. split.
      + rewrite Forall_map in Hp. eapply Forall_impl; [|exact Hp].
        intros t [z Hz] C. rewrite C in Hz. discriminate.
      + destruct (to_numeric P (Str.replace "," "." s)); [discriminate|].
        split; [reflexivity|]. now injection Hx as <-.
    - intros [(_ & pre & s & post & -> & Hp & Hs & ->)|[(C & _)|(C & _)]];
        [|discriminate C|congruence].
      exists (map (Str.replace "," ".") pre), (Str.replace "," "." s),
        (map (Str.replace "," ".") post).
      split; [now rewrite map_app|]. split.
      + rewrite Forall_map. eapply Forall_impl; [|exact Hp].
        intros t Ht. cbv beta in Ht.
        destruct (to_numeric P (Str.replace "," "." t)) as [q|];
          [now exists (CNum q)|congruence].
      + now rewrite Hs. }
  destruct (String.eqb_spec data_type DATE_FORMAT) as [->|N2].
  { rewrite rmap_raise_iff. split.
    - intros (pre & s & post & -> & Hp & Hx).
      right; left. split; [reflexivity|]. exists pre, s, post.
      split; [reflexivity|]. split.
      + eapply Forall_impl; [|exact Hp].
        intros t [z Hz] C. rewrite C in Hz. discriminate.
      + destruct (to_datetime P s DATE_STR_FMT); [discriminate|].
        split; [reflexivity|]. now injection Hx as <-.
    - intros [(C & _)|[(_ & pre & s & post & -> & Hp & Hs & ->)|(_ & C & _)]];
        [discriminate C| |congruence].
      exists pre, s, post. split; [reflexivity|]. split.
      + eapply Forall_impl; [|exact Hp].
        intros t Ht. cbv beta in Ht.
        destruct (to_datetime P t DATE_STR_FMT) as [d|];
          [now exists (CDate d)|congruence].
      + now rewrite Hs. }
  destruct (String.eqb_spec data_type STR_FORMAT) as [->|N3].
  { split; [discriminate|].
    intros [(C & _)|[(C & _)|(_ & _ & C & _)]];
      [discriminate C|discriminate C|congruence]. }
  destruct (String.eqb_spec data_type BOOL_FORMAT) as [->|N4].
  { split; [discriminate|].
    intros [(C & _)|[(C & _)|(_ & _ & _ & C & _)]];
      [discriminate C|discriminate C|congruence]. }
  split.
  - intros H. injection H as <-. right; right. now repeat split.
  - intros [(C & _)|[(C & _)|(_ & _ & _ & _ & ->)]];
      [contradiction|contradiction|reflexivity].
Qed.

(** ** [convert_col] on the frame *)

(** On a text column the method is the conversion of its cells. *)
Lemma convert_col_text (P : pandas) (col_name data_type : string)
    (df : Frame) (texts : list string) :
  Loading.getcol col_name df = Some (map CStr texts) ->
  Loading.convert_col P col_name data_type df =
  Loading.assign_converted P col_name data_type texts
    (replaced_text col_name data_type texts df).
Proof.
  intros H. unfold Loading.convert_col, Loading.with_text, replaced_text.
  rewrite H, as_text_CStr.
  destruct (data_type =? NUM_FORMAT) eqn:E1; [reflexivity|].
  destruct (data_type =? DATE_FORMAT) eqn:E2; [apply String.eqb_eq in E2; subst; reflexivity|].
  destruct (data_type =? STR_FORMAT) eqn:E3; [apply String.eqb_eq in E3; subst; reflexivity|].
  destruct (data_type =? BOOL_FORMAT) eqn:E4; [reflexivity|].
  unfold Loading.assign_converted, ExpenseManager.convert_col.
  now rewrite E1, E2, E3, E4.
Qed.

(** What a call of the method leaves alone. *)
Lemma convert_col_frame (P : pandas) (col_name data_type : string)
    (df : Frame) (c : string) :
  c <> col_name ->
  Loading.getcol c (snd (Loading.convert_col P col_name data_type df))
  = Loading.getcol c df
  /\ map fst (snd (Loading.convert_col P col_name data_type df))
     = map fst df.
Proof.
  intros N.
  assert (A : forall texts df1,
             Loading.getcol col_name df1 <> None ->
             Loading.getcol c df1 = Loading.getcol c df ->
             map fst df1 = map fst df ->
             let r := snd (Loading.assign_converted P col_name data_type
                             texts df1) in
             Loading.getcol c r = Loading.getcol c df
             /\ map fst r = map fst df).
  { intros texts df1 H0 H1 H2. unfold Loading.assign_converted.
    destruct (ExpenseManager.convert_col P texts data_type); cbn [snd].
    - rewrite getcol_setcol_other by exact N.
      now rewrite setcol_names by exact H0.
    - now split. }
  assert (S : forall cells,
             Loading.getcol col_name df <> None ->
             Loading.getcol col_name (Loading.setcol col_name cells df)
             <> None
             /\ Loading.getcol c (Loading.setcol col_name cells df)
                = Loading.getcol c df
             /\ map fst (Loading.setcol col_name cells df) = map fst df).
  { intros cells H0. rewrite getcol_setcol_same.
    rewrite getcol_setcol_other by exact N.
    rewrite setcol_names by exact H0. repeat split. discriminate. }
  unfold Loading.convert_col, Loading.with_text.
  destruct (Loading.getcol col_name df) as [cells|] eqn:E.
  - assert (H0 : Loading.getcol col_name df <> None) by congruence.
    assert (H0' : Some cells <> None) by discriminate.
    destruct (Loading.as_text cells) as [texts|].
    + destruct (data_type =? NUM_FORMAT).
      { destruct (S (map CStr (map (Str.replace "," ".") texts)) H0')
          as (S1 & S2 & S3). now apply A. }
      destruct (data_type =? DATE_FORMAT); [now apply A|].
      destruct (data_type =? STR_FORMAT); [now apply A|].
      destruct (data_type =? BOOL_FORMAT); [|now split].
      destruct (S (map CStr (map (Str.replace "no" "") texts)) H0')
        as (S1 & S2 & S3). now apply A.
    + destruct (data_type =? NUM_FORMAT); [now split|].
      destruct (data_type =? DATE_FORMAT); [now split|].
      destruct (data_type =? STR_FORMAT); [now split|].
      destruct (data_type =? BOOL_FORMAT); now split.
  - destruct (data_type =? NUM_FORMAT); [now split|].
    destruct (data_type =? DATE_FORMAT); [now split|].
    destruct (data_type =? STR_FORMAT); [now split|].
    destruct (data_type =? BOOL_FORMAT); now split.
Qed.

(** X3. A call of [convert_col] on the frame changes no column but the
    one it names, and neither adds nor removes nor renames a column,
    whether it returns or raises; so the columns come out of a run of
    calls in the order they went in. *)
Theorem convert_col_other_columns (P : pandas) (col_name data_type : string)
    (df : Frame) (c : string) :
  c <> col_name ->
  let df' := snd (Loading.convert_col P col_name data_type df) in
  Loading.getcol c df' = Loading.getcol c df
  /\ map fst df' = map fst df
  /\ forall next next_type,
       map fst (snd (Loading.convert_col P next next_type df')) = map fst df.
Proof.
  intros N df'.
  destruct (convert_col_frame P col_name data_type df c N) as [G1 G2].
  split; [exact G1|split; [exact G2|]].
  intros next next_type. rewrite <- G2.
  assert (M : forall col ty d,
             map fst (snd (Loading.convert_col P col ty d)) = map fst d).
  { intros col ty d.
    destruct (String.eqb_spec col "") as [->|Ne].
    - apply (convert_col_frame P "" ty d "x"). discriminate.
    - apply (convert_col_frame P col ty d ""). congruence. }
  apply M.
Qed.

Lemma convert_col_other_columns_witness :
  Loading.getcol PROD_COL
    (snd (Loading.convert_col stable_kind VAL_COL NUM_FORMAT sample_frame))
  = Some [CStr "bread"; CStr "gift"].
Proof.
  assert (N : PROD_COL <> VAL_COL) by discriminate.
  destruct (convert_col_other_columns stable_kind VAL_COL NUM_FORMAT
              sample_frame PROD_COL N) as [H _].
  rewrite H. reflexivity.
Defined.

(** X4. With a format that is none of the four, [convert_col] raises the
    exception of its last branch, naming the format, before it looks at
    the frame: the column may be missing or hold anything, and the frame
    is left as it was. *)
Theorem convert_col_invalid_format (P : pandas) (col_name data_type : string)
    (df : Frame) :
  data_type <> NUM_FORMAT -> data_type <> DATE_FORMAT ->
  data_type <> STR_FORMAT -> data_type <> BOOL_FORMAT ->
  Loading.convert_col P col_name data_type df =
  (Raised (PyException ("[!] Invalid format " ++ data_type ++ "!")), df)
  /\ forall cells,
       ExpenseManager.convert_col P cells data_type =
       Raise (PyException ("[!] Invalid format " ++ data_type ++ "!")).
Proof.
  intros N1 N2 N3 N4.
  apply String.eqb_neq in N1, N2, N3, N4.
  unfold Loading.convert_col, ExpenseManager.convert_col.
  now rewrite N1, N2, N3, N4.
Qed.

Lemma convert_col_invalid_format_witness :
  Loading.convert_col stable_kind VAL_COL "float" sample_frame
  = (Raised (PyException "[!] Invalid format float!"), sample_frame).
Proof.
  assert (N1 : "float" <> NUM_FORMAT) by discriminate.
  assert (N2 : "float" <> DATE_FORMAT) by discriminate.
  assert (N3 : "float" <> STR_FORMAT) by discriminate.
  assert (N4 : "float" <> BOOL_FORMAT) by discriminate.
  destruct (convert_col_invalid_format stable_kind VAL_COL "float"
              sample_frame N1 N2 N3 N4) as [H _].
  exact H.
Defined.


(** ** [convert_all_cols] *)

Lemma convert_all_cols_run (P : pandas) (df : Frame) (t : TextColumns) :
  reads_as df t ->
  Loading.convert_all_cols P df =
  match ExpenseManager.convert_col P (t_date t) DATE_FORMAT with
  | Raise e => (Raised e, df)
  | Ok ds =>
      match ExpenseManager.convert_col P (t_value t) NUM_FORMAT with
      | Raise e =>
          (Raised e,
           Loading.setcol VAL_COL
             (map CStr (map (Str.replace "," ".") (t_value t)))
             (Loading.setcol PROD_COL (map CStr (t_product t))
                (Loading.setcol DT_COL ds df)))
      | Ok vs => (Returned, after_all df t ds vs)
      end
  end.
Proof.
  intros (H1 & H2 & H3 & H4 & H5 & H6 & H7 & H8 & H9).
  unfold Loading.convert_all_cols, Loading.col_dict.
  cbn [Loading.for_each].
  rewrite (convert_col_text P DT_COL DATE_FORMAT df (t_date t) H1).
  unfold Loading.assign_converted at 1.
  change (replaced_text DT_COL DATE_FORMAT (t_date t) df) with df.
  destruct (ExpenseManager.convert_col P (t_date t) DATE_FORMAT) as [ds|e];
    [|reflexivity].
  rewrite (convert_col_text P PROD_COL STR_FORMAT _ (t_product t))
    by (getcols; exact H2).
  unfold Loading.assign_converted at 1. rewrite convert_col_str.
  change (replaced_text PROD_COL STR_FORMAT (t_product t) ?d) with d.
  rewrite (convert_col_text P VAL_COL NUM_FORMAT _ (t_value t))
    by (getcols; exact H3).
  unfold Loading.assign_converted at 1.
  change (replaced_text VAL_COL NUM_FORMAT (t_value t) ?d)
    with (Loading.setcol VAL_COL
            (map CStr (map (Str.replace "," ".") (t_value t))) d).
  destruct (ExpenseManager.convert_col P (t_value t) NUM_FORMAT) as [vs|e];
    [|reflexivity].
  rewrite (convert_col_text P CATEG_COL STR_FORMAT _ (t_category t))
    by (getcols; exact H4).
  unfold Loading.assign_converted at 1. rewrite convert_col_str.
  change (replaced_text CATEG_COL STR_FORMAT (t_category t) ?d) with d.
  rewrite (convert_col_text P PAY_COL STR_FORMAT _ (t_payment_method t))
    by (getcols; exact H5).
  unfold Loading.assign_converted at 1. rewrite convert_col_str.
  change (replaced_text PAY_COL STR_FORMAT (t_payment_method t) ?d) with d.
  rewrite (convert_col_text P PRIOR_COL BOOL_FORMAT _ (t_priority t))
    by (getcols; exact H6).
  unfold Loading.assign_converted at 1. rewrite convert_col_bool.
  change (replaced_text PRIOR_COL BOOL_FORMAT (t_priority t) ?d)
    with (Loading.setcol PRIOR_COL
            (map CStr (map (Str.replace "no" "") (t_priority t))) d).
  rewrite (convert_col_text P MY_EXP_COL BOOL_FORMAT _ (t_my_expense t))
    by (getcols; exact H7).
  unfold Loading.assign_converted at 1. rewrite convert_col_bool.
  change (replaced_text MY_EXP_COL BOOL_FORMAT (t_my_expense t) ?d)
    with (Loading.setcol MY_EXP_COL
            (map CStr (map (Str.replace "no" "") (t_my_expense t))) d).
  rewrite (convert_col_text P FIX_EXP_COL BOOL_FORMAT _ (t_fixed_expense t))
    by (getcols; exact H8).
  unfold Loading.assign_converted at 1. rewrite convert_col_bool.
  change (replaced_text FIX_EXP_COL BOOL_FORMAT (t_fixed_expense t) ?d)
    with (Loading.setcol FIX_EXP_COL
            (map CStr (map (Str.replace "no" "") (t_fixed_expense t))) d).
  rewrite (convert_col_text P DETAILS_COL STR_FORMAT _ (t_details t))
    by (getcols; exact H9).
  unfold Loading.assign_converted at 1. rewrite convert_col_str.
  reflexivity.
Qed.

Lemma after_all_names (df : Frame) (t : TextColumns) (ds vs : list cell) :
  reads_as df t -> map fst (after_all df t ds vs) = map fst df.
Proof.
  intros (H1 & H2 & H3 & H4 & H5 & H6 & H7 & H8 & H9).
  unfold after_all, after_value.
  repeat (rewrite setcol_names; [|getcols; congruence]).
  reflexivity.
Qed.

(** X5. When the frame holds the nine columns as text and every date and
    every value is read, [convert_all_cols] returns; the frame then holds,
    under the same names, the dates, the numbers, the three boolean
    columns converted by the substring rule and the four text columns as
    they were, each with as many cells as before, and every other column
    untouched. *)
Theorem convert_all_cols_converts (P : pandas) (df : Frame)
    (t : TextColumns) (ds vs : list cell) :
  reads_as df t ->
  ExpenseManager.convert_col P (t_date t) DATE_FORMAT = Ok ds ->
  ExpenseManager.convert_col P (t_value t) NUM_FORMAT = Ok vs ->
  let df' := snd (Loading.convert_all_cols P df) in
  fst (Loading.convert_all_cols P df) = Returned
  /\ Loading.getcol DT_COL df' = Some ds
  /\ Loading.getcol PROD_COL df' = Some (map CStr (t_product t))
  /\ Loading.getcol VAL_COL df' = Some vs
  /\ Loading.getcol CATEG_COL df' = Some (map CStr (t_category t))
  /\ Loading.getcol PAY_COL df' = Some (map CStr (t_payment_method t))
  /\ Loading.getcol PRIOR_COL df' = Some (bool_cells (t_priority t))
  /\ Loading.getcol MY_EXP_COL df' = Some (bool_cells (t_my_expense t))
  /\ Loading.getcol FIX_EXP_COL df' = Some (bool_cells (t_fixed_expense t))
  /\ Loading.getcol DETAILS_COL df' = Some (map CStr (t_details t))
  /\ (forall c, ~ In c columns -> Loading.getcol c df' = Loading.getcol c df)
  /\ map fst df' = map fst df
  /\ List.length ds = List.length (t_date t)
  /\ List.length vs = List.length (t_value t).
Proof.
  intros H Hd Hv df'. unfold df'.
  rewrite (convert_all_cols_run P df t H), Hd, Hv.
  cbn [fst snd]. unfold after_all, after_value.
  repeat split; getcols; try reflexivity.
  - intros c Hc. unfold columns in Hc. simpl in Hc.
    repeat (rewrite getcol_setcol_other; [|intros ->; apply Hc; tauto]).
    reflexivity.
  - now apply (after_all_names df t ds vs).
  - now apply convert_col_length in Hd.
  - now apply convert_col_length in Hv.
Qed.

Lemma convert_all_cols_converts_witness :
  fst (Loading.convert_all_cols stable_kind sample_frame) = Returned
  /\ Loading.getcol VAL_COL
       (snd (Loading.convert_all_cols stable_kind sample_frame))
     = Some [CNum (7 # 2); CNum 30]
  /\ Loading.getcol FIX_EXP_COL
       (snd (Loading.convert_all_cols stable_kind sample_frame))
     = Some [CBool false; CBool true].
Proof.
  destruct (convert_all_cols_converts stable_kind sample_frame sample_text
              [CDate (mkDate 2023 10 2); CDate (mkDate 2023 10 3)]
              [CNum (7 # 2); CNum 30]
              (reads_as_text_frame sample_text) eq_refl eq_refl)
    as (H1 & _ & _ & H4 & _ & _ & _ & _ & H9 & _).
  split; [exact H1|split; [exact H4|exact H9]].
Defined.



(** X7. When the dates are read and a value is not, [convert_all_cols]
    raises the error of the numeric conversion and undoes nothing: the
    date column stays converted, the value column keeps its text with the
    commas replaced by periods, the other columns are as they were. *)
Theorem convert_all_cols_bad_value (P : pandas) (df : Frame)
    (t : TextColumns) (ds : list cell) (e : exn) :
  reads_as df t ->
  ExpenseManager.convert_col P (t_date t) DATE_FORMAT = Ok ds ->
  ExpenseManager.convert_col P (t_value t) NUM_FORMAT = Raise e ->
  let df' := snd (Loading.convert_all_cols P df) in
  fst (Loading.convert_all_cols P df) = Raised e
  /\ Loading.getcol DT_COL df' = Some ds
  /\ Loading.getcol VAL_COL df' =
     Some (map CStr (map (Str.replace "," ".") (t_value t)))
  /\ (forall c, c <> DT_COL -> c <> VAL_COL ->
                Loading.getcol c df' = Loading.getcol c df).
Proof.
  intros H Hd Hv df'. unfold df'.
  rewrite (convert_all_cols_run P df t H), Hd, Hv.
  cbn [fst snd]. repeat split; getcols; try reflexivity.
  intros c N1 N2.
  rewrite getcol_setcol_other by exact N2.
  destruct (String.eqb_spec c PROD_COL) as [->|N3].
  - rewrite getcol_setcol_same. symmetry. apply H.
  - rewrite getcol_setcol_other by exact N3.
    now rewrite getcol_setcol_other by exact N1.
Qed.

Lemma convert_all_cols_bad_value_witness :
  let df := text_frame
              (sample_columns ["10/02/2023"; "10/03/2023"] ["3,50"; "abc"]) in
  fst (Loading.convert_all_cols stable_kind df) = Raised (ValueError "abc")
  /\ Loading.getcol VAL_COL (snd (Loading.convert_all_cols stable_kind df))
     = Some [CStr "3.50"; CStr "abc"]
  /\ Loading.getcol PRIOR_COL (snd (Loading.convert_all_cols stable_kind df))
     = Some [CStr "yes"; CStr "no"].
Proof.
  intros df.
  destruct (convert_all_cols_bad_value stable_kind df
              (sample_columns ["10/02/2023"; "10/03/2023"] ["3,50"; "abc"])
              [CDate (mkDate 2023 10 2); CDate (mkDate 2023 10 3)]
              (ValueError "abc")
              (reads_as_text_frame _) eq_refl eq_refl)
    as (H1 & _ & H3 & H4).
  split; [exact H1|split; [exact H3|]].
  rewrite (H4 PRIOR_COL) by discriminate. reflexivity.
Defined.





(** ** More on the queries *)

(** X9. [get_filtered_df] on a name that is not a column of the table
    raises [KeyError] for that name, and so does a call that leaves
    [filter_col] at its default; the object is left as it was. *)
Theorem get_filtered_df_unknown_column (P : pandas) (w : World)
    (col : string) (filter_val : option string) (my_own_exp : bool) :
  ~ In col columns ->
  get_filtered_df P (Some col) filter_val my_own_exp w
  = (Raise (KeyError (Some col)), w)
  /\ get_filtered_df P None filter_val my_own_exp w
     = (Raise (KeyError None), w).
Proof.
  intros H. split; [|reflexivity].
  rewrite get_filtered_df_run.
  destruct (existsb (String.eqb col) columns) eqn:E; [|reflexivity].
  apply existsb_exists in E. destruct E as (c & Hc & E).
  apply String.eqb_eq in E. subst c. contradiction.
Qed.

Lemma get_filtered_df_unknown_column_witness :
  get_filtered_df stable_kind (Some "price") (Some "3") true sample_world
  = (Raise (KeyError (Some "price")), sample_world).
Proof.
  assert (N : ~ In "price" columns).
  { intros H. simpl in H.
    repeat (destruct H as [H|H]; [discriminate H|]). exact H. }
  destruct (get_filtered_df_unknown_column stable_kind sample_world "price"
              (Some "3") true N) as [H _].
  exact H.
Defined.

Lemma filter_split {A} (p q : A -> bool) (l : list A) :
  Permutation (filter (fun x => p x && q x) l
               ++ filter (fun x => negb (p x) && q x) l)
              (filter q l).
Proof.
  induction l as [|x l IH]; simpl; [constructor|].
  destruct (p x), (q x); simpl; try exact IH.
  - now constructor.
  - rewrite <- Permutation_middle. now constructor.
Qed.

(** X10. For a column and a value, the rows [get_filtered_df] returns for
    the user's own expenses and those it returns for the others share no
    row and together are the rows of the table whose cell equals the
    value: every returned row carries the ownership flag asked for. *)
Theorem get_filtered_df_by_owner (P : pandas) (w : World) (col : string)
    (filter_val : option string) :
  In col columns ->
  exists own others,
    get_filtered_df P (Some col) filter_val true w = (Ok own, w)
    /\ get_filtered_df P (Some col) filter_val false w = (Ok others, w)
    /\ Forall (fun r => my_expense r = true) own
    /\ Forall (fun r => my_expense r = false) others
    /\ Permutation (own ++ others)
         (filter (row_eq P col filter_val) (df_exp (self w)))
    /\ (List.length own + List.length others
        = List.length (filter (row_eq P col filter_val) (df_exp (self w))))%nat.
Proof.
  intros Hcol.
  assert (E : existsb (String.eqb col) columns = true).
  { apply existsb_exists. exists col. split; [exact Hcol|apply String.eqb_refl]. }
  do 2 eexists. rewrite !get_filtered_df_run, E.
  split; [reflexivity|split; [reflexivity|]].
  assert (Pm : Permutation
                 (filter (fun r => Bool.eqb (my_expense r) true
                                   && row_eq P col filter_val r)
                         (df_exp (self w))
                  ++ filter (fun r => Bool.eqb (my_expense r) false
                                      && row_eq P col filter_val r)
                            (df_exp (self w)))
                 (filter (row_eq P col filter_val) (df_exp (self w)))).
  { rewrite <- (filter_split my_expense (row_eq P col filter_val)).
    apply Permutation_app; apply Permutation_refl'; apply filter_ext;
      intros r; now destruct (my_expense r). }
  split; [|split; [|split]].
  - apply Forall_forall. intros r Hr. apply filter_In in Hr.
    destruct Hr as [_ Hr]. apply andb_true_iff in Hr.
    destruct Hr as [Hr _]. now apply eqb_prop in Hr.
  - apply Forall_forall. intros r Hr. apply filter_In in Hr.
    destruct Hr as [_ Hr]. apply andb_true_iff in Hr.
    destruct Hr as [Hr _]. now apply eqb_prop in Hr.
  - exact Pm.
  - apply Permutation_length in Pm. now rewrite length_app in Pm.
Qed.

Lemma get_filtered_df_by_owner_witness :
  exists own others,
    get_filtered_df stable_kind (Some PAY_COL) (Some "debit") true
                    sample_world = (Ok own, sample_world)
    /\ get_filtered_df stable_kind (Some PAY_COL) (Some "debit") false
                       sample_world = (Ok others, sample_world)
    /\ (List.length own + List.length others = 3)%nat.
Proof.
  assert (H : In PAY_COL columns) by (simpl; tauto).
  destruct (get_filtered_df_by_owner stable_kind sample_world PAY_COL
              (Some "debit") H)
    as (own & others & H1 & H2 & _ & _ & _ & H6).
  exists own, others. split; [exact H1|split; [exact H2|exact H6]].
Defined.

(** X11. With [filter_val] left at its default ([None]),
    [get_filtered_df] returns the empty frame for every column; and on the
    [value], [priority], [my_expense] and [fixed_expense] columns, whose
    cells are numbers and booleans, it returns the empty frame for every
    text, also the text of a number the column holds. *)
Theorem get_filtered_df_never_equal (P : pandas) (w : World) (col : string)
    (filter_val : option string) (my_own_exp : bool) :
  In col columns ->
  get_filtered_df P (Some col) None my_own_exp w = (Ok [], w)
  /\ (In col [VAL_COL; PRIOR_COL; MY_EXP_COL; FIX_EXP_COL] ->
      get_filtered_df P (Some col) filter_val my_own_exp w = (Ok [], w)).
Proof.
  intros Hcol.
  assert (E : existsb (String.eqb col) columns = true).
  { apply existsb_exists. exists col. split; [exact Hcol|apply String.eqb_refl]. }
  rewrite !get_filtered_df_run, E. split.
  - rewrite filter_nil; [reflexivity|].
    intros r _. unfold row_eq.
    destruct (getitem col r); [|now rewrite andb_false_r].
    now rewrite andb_false_r.
  - intros H. rewrite filter_nil; [reflexivity|].
    intros r _. apply andb_false_iff. right.
    simpl in H. destruct H as [<-|[<-|[<-|[<-|[]]]]];
      unfold row_eq; simpl; now destruct filter_val.
Qed.

Lemma get_filtered_df_never_equal_witness :
  get_filtered_df stable_kind (Some VAL_COL) (Some "3") true sample_world
  = (Ok [], sample_world).
Proof.
  assert (H : In VAL_COL columns) by (simpl; tauto).
  destruct (get_filtered_df_never_equal stable_kind sample_world VAL_COL
              (Some "3") true H) as [_ G].
  apply G. simpl. tauto.
Defined.

Lemma date_eqb_eq (a b : Date) : date_eqb a b = true <-> a = b.
Proof.
  unfold date_eqb, date_compare. destruct a as [y m d], b as [y' m' d'].
  cbn [year month day].
  destruct (Z.compare_spec y y'); try (split; [discriminate|intros [=]; lia]).
  destruct (Z.compare_spec m m'); try (split; [discriminate|intros [=]; lia]).
  destruct (Z.compare_spec d d'); try (split; [discriminate|intros [=]; lia]).
  subst. now split.
Qed.

(** X12. On the date column [get_filtered_df] returns the rows of the
    owner asked for whose day is the day the text is read as, and no row
    when the text is not read as a day. *)
Theorem get_filtered_df_by_date (P : pandas) (w : World) (v : string)
    (my_own_exp : bool) :
  exists kept,
    get_filtered_df P (Some DT_COL) (Some v) my_own_exp w = (Ok kept, w)
    /\ (forall r, In r kept <->
                  In r (df_exp (self w)) /\ my_expense r = my_own_exp
                  /\ Timestamp P v = Some (date r))
    /\ (Timestamp P v = None -> kept = []).
Proof.
  eexists. rewrite get_filtered_df_run.
  change (existsb (String.eqb DT_COL) columns) with true. cbv iota.
  split; [reflexivity|split].
  - intros r. rewrite filter_In, andb_true_iff, eqb_true_iff.
    unfold row_eq. change (getitem DT_COL r) with (Some (CDate (date r))).
    cbn [cell_eq]. destruct (Timestamp P v) as [t|].
    + rewrite date_eqb_eq. split.
      * intros (H1 & H2 & H3). now subst t.
      * intros (H1 & H2 & H3). injection H3 as ->. tauto.
    + split; [intros (_ & _ & C); discriminate|intros (_ & _ & C); discriminate].
  - intros N. apply filter_nil. intros r _. unfold row_eq.
    change (getitem DT_COL r) with (Some (CDate (date r))).
    cbn [cell_eq]. rewrite N. apply andb_false_r.
Qed.

Lemma on_or_after_trans (a b c : Date) :
  on_or_after a b -> on_or_after b c -> on_or_after a c.
Proof. unfold on_or_after. lia. Qed.

Lemma filter_all {A} (p : A -> bool) (l : list A) :
  Forall (fun x => p x = true) l -> filter p l = l.
Proof.
  induction 1 as [|x l Hx _ IH]; simpl; [reflexivity|].
  now rewrite Hx, IH.
Qed.

(** X13. [get_sum_by_date] with a date that is read sums the rows dated
    that day or later: it is [get_sum] of the whole frame when no row is
    earlier, 0 when every row is earlier, and filtering by a day and then
    by a later day counts the rows the later day alone counts. *)
Theorem get_sum_by_date_thresholds (P : pandas) (df : DataFrame)
    (filter_date : string) (t : Date) (w : World) :
  Timestamp P filter_date = Some t ->
  (Forall (fun r => on_or_after t (date r)) df ->
   get_sum_by_date P df filter_date w = get_sum df w)
  /\ (Forall (fun r => ~ on_or_after t (date r)) df ->
      get_sum_by_date P df filter_date w = (Ok 0, w))
  /\ (forall later t',
         Timestamp P later = Some t' -> on_or_after t t' ->
         get_sum_by_date P (since t df) later w
         = get_sum_by_date P df later w)
  /\ forall r, In r (since t df) <-> In r df /\ on_or_after t (date r).
Proof.
  intros Ht. unfold get_sum_by_date. rewrite Ht.
  split; [|split; [|split]].
  - intros H. rewrite filter_all; [reflexivity|].
    eapply Forall_impl; [|exact H]. intros r Hr. now apply date_geb_spec.
  - intros H. rewrite filter_nil; [reflexivity|].
    intros r Hr. rewrite Forall_forall in H. specialize (H r Hr).
    destruct (date_geb (date r) t) eqn:E; [|reflexivity].
    apply date_geb_spec in E. contradiction.
  - intros later t' Ht' Hle. rewrite Ht'. unfold since.
    rewrite filter_filter. f_equal. apply filter_ext. intros r.
    destruct (date_geb (date r) t') eqn:E; [|now rewrite andb_false_r].
    rewrite andb_true_r. apply date_geb_spec.
    apply date_geb_spec in E. now apply (on_or_after_trans t t').
  - intros r. unfold since. now rewrite filter_In, date_geb_spec.
Qed.

Lemma get_sum_by_date_thresholds_witness :
  get_sum_by_date stable_kind (since threshold sample_table) "2023-10-03"
                  sample_world
  = get_sum_by_date stable_kind sample_table "2023-10-03" sample_world.
Proof.
  assert (H : Timestamp stable_kind "2023-10-01" = Some threshold)
    by reflexivity.
  destruct (get_sum_by_date_thresholds stable_kind sample_table "2023-10-01"
              threshold sample_world H) as (_ & _ & G & _).
  apply (G "2023-10-03" (mkDate 2023 10 3)); [reflexivity|].
  unfold on_or_after. simpl. lia.
Defined.

(** ** More on the summary *)

Lemma sort_values_nil (P : pandas) {A} (key : A -> Q) (ascending : bool) :
  sort_values P key ascending [] = [].
Proof.
  apply Permutation_nil. symmetry. apply sort_values_perm.
Qed.

Lemma own_paid_by_summarised (method : string) (df : DataFrame) :
  method = "debit" \/ method = "credit" ->
  own_paid_by method (filter summarised df) = own_paid_by method df.
Proof.
  intros H. unfold own_paid_by. rewrite filter_filter.
  apply filter_ext. intros r. unfold summarised.
  destruct (my_expense r); [|reflexivity]. simpl.
  destruct H as [-> | ->];
    destruct (payment_method r =? "debit"),
      (payment_method r =? "credit"); reflexivity.
Qed.

(** X14. On a table without a row of the user paid by debit or by credit
    (the empty table is one) [summary] returns and prints both totals as
    0 and four empty listings between its banners. *)
Theorem summary_nothing_to_list (P : pandas) (w : World) :
  Forall (fun r => summarised r = false) (df_exp (self w)) ->
  summary P w =
  (Ok tt,
   {| self := self w;
      stdout :=
        stdout w ++
        [ bars;
          PTotal "Sum of all debit expenses:  $" 0;
          PText (nl ++ "Most expensive items paid in debit: ");
          PItems [];
          PText (nl ++ "Most expensive categories paid in debit: ");
          PGroups [];
          bars;
          bars;
          PTotal "Sum of all credit expenses: $" 0;
          PText (nl ++ "Most expensive items paid in credit: ");
          PItems [];
          PText (nl ++ "Most expensive categories paid in credit: ");
          PGroups [];
          bars ] |}).
Proof.
  intros H. rewrite summary_run. unfold summary_output.
  assert (E : forall method, method = "debit" \/ method = "credit" ->
                             own_paid_by method (df_exp (self w)) = []).
  { intros method Hm. rewrite <- (own_paid_by_summarised method _ Hm).
    rewrite (filter_nil summarised); [reflexivity|].
    intros r Hr. rewrite Forall_forall in H. now apply H. }
  rewrite (E "debit"), (E "credit") by tauto.
  unfold top_items, top_groups. simpl map. simpl groupby_sum.
  rewrite !sort_values_nil. reflexivity.
Qed.

Lemma summary_nothing_to_list_witness :
  fst (summary stable_kind others_world) = Ok tt
  /\ List.length (stdout (snd (summary stable_kind others_world))) = 14%nat.
Proof.
  assert (H : Forall (fun r => summarised r = false)
                     (df_exp (self others_world))).
  { repeat constructor. }
  rewrite (summary_nothing_to_list stable_kind others_world H).
  split; reflexivity.
Defined.

(** X15. [summary] prints the same for a table and for the table without
    the rows that are not the user's or are paid neither by debit nor by
    credit: the other rows have no part in any total or listing. *)
Theorem summary_ignores_other_rows (P : pandas) (w : World) :
  let w' := {| self := {| csv_file := csv_file (self w);
                          df_exp := filter summarised (df_exp (self w)) |};
               stdout := stdout w |} in
  stdout (snd (summary P w')) = stdout (snd (summary P w))
  /\ fst (summary P w') = fst (summary P w).
Proof.
  cbv zeta. rewrite !summary_run. cbn [fst snd stdout self df_exp].
  split; [|reflexivity]. f_equal. unfold summary_output.
  now rewrite !own_paid_by_summarised by tauto.
Qed.
